(** * jwt-with-go: the request-handling pipeline

    A shallow embedding of the Go package [handlers] of
    hi-im-yan/jwt-with-go, in its revision with the typed context keys:
    apiHandler.go ([ApiHandlerAdapter], [MiddlewareAdapter],
    [VerifyJwtToken]), middlewares.go ([JWTAuthMiddleware],
    [OnlyAdminMiddleware]), userHandler.go (the user handlers and
    [UserRouter]) and authenticationHandler.go ([CreateJwtToken],
    [Login]), together with the properties of the pipeline.

    Conventions.
    - A Go function [func(w http.ResponseWriter, r *http.Request) ...] is a
      function from the request to a computation over the [World]: the calls
      made on the response writer so far and the users table.  A computation
      either returns or panics.
    - [log.Printf] only writes to the process log and is left out.
    - Libraries the handlers call (golang-jwt, bcrypt, encoding/json for
      typed payloads, the process environment and clock) are the fields of
      the class [Platform]; net/http's writer is modelled by the calls made
      on it and pgx by a finite map of rows. *)

From Stdlib Require Import ZArith String Ascii List Bool Lia.
From stdpp Require Import base option list gmap strings.

Local Open Scope string_scope.
Local Open Scope Z_scope.

(** ** Go values and the request context *)

(** The dynamic values that flow through [interface{}] slots in the
    handlers: context values and JWT claim values. *)
Inductive GoValue : Type :=
  | VNil
  | VString (s : string)
  | VNumber (n : Z)
  | VBool (b : bool).

#[global] Instance GoValue_eq_dec : EqDecision GoValue.
Proof. solve_decision. Defined.

(** Comparison of an interface value with a string constant, as in
    [r.Context().Value("role") != "admin"]: equal only when the dynamic
    value is that very string. *)
Definition iface_eq_string (v : GoValue) (s : string) : bool :=
  match v with
  | VString t => String.eqb t s
  | _ => false
  end.

(** Keys of [context.WithValue].  Go compares keys as interface values:
    dynamic type first, then value.  [KString] is a key of the predeclared
    type [string]; [KContextKey] is a key of the package's own
    [type contextKey string]; [KForeign] stands for the keys other packages
    install (net/http, chi), all of unexported types. *)
Inductive CtxKey : Type :=
  | KString (s : string)
  | KContextKey (s : string)
  | KForeign (pkg : string).

#[global] Instance CtxKey_eq_dec : EqDecision CtxKey.
Proof. solve_decision. Defined.

Definition ContextUsernameKey : CtxKey := KContextKey "username".
Definition ContextRoleKey : CtxKey := KContextKey "role".

(** A context is the chain of [WithValue] nodes, innermost first. *)
Definition Context : Type := list (CtxKey * GoValue).

Definition context_WithValue (parent : Context) (k : CtxKey) (v : GoValue)
  : Context := (k, v) :: parent.

Fixpoint context_Value (c : Context) (k : CtxKey) : GoValue :=
  match c with
  | [] => VNil
  | (k', v) :: parent =>
      if decide (k' = k) then v else context_Value parent k
  end.

(** ** Requests *)

Record Request : Type := mkRequest {
  Header : gmap string (list string);
  URLParams : gmap string string;
  Body : string;
  Ctx : Context
}.

(** [http.Header.Get]: the first value of the key, or the empty string. *)
Definition Header_Get (r : Request) (key : string) : string :=
  match Header r !! key with
  | Some (v :: _) => v
  | _ => ""
  end.

(** [chi.URLParam]: the path parameter, or the empty string. *)
Definition chi_URLParam (r : Request) (key : string) : string :=
  default "" (URLParams r !! key).

Definition WithContext (r : Request) (c : Context) : Request :=
  {| Header := Header r; URLParams := URLParams r; Body := Body r; Ctx := c |}.

(** ** Envelopes *)

Record user : Type := mkUser {
  ID : Z;
  Name : string;
  Email : string;
  Role : string
}.

Record userRequest : Type := mkUserRequest {
  reqName : string;
  reqEmail : string
}.

Record loginRequest : Type := mkLoginRequest {
  loginEmail : string;
  loginPassword : string
}.

Record authResponse : Type := mkAuthResponse {
  authMessage : string;
  authToken : string
}.

Record ErrorResponse : Type := mkErrorResponse {
  Code : string;
  Message : string;
  Detail : string
}.

(** What a handler can put in the [Data interface{}] field, and what the
    adapters hand to the JSON encoder.  [DNil] is the nil interface. *)
Inductive Data : Type :=
  | DNil
  | DUser (u : user)
  | DUsers (us : list user)
  | DAuth (a : authResponse)
  | DHealth (health : string)
  | DError (e : ErrorResponse).

Record HandlerSuccess : Type := mkSuccess {
  SuccessStatus : Z;
  SuccessData : Data
}.

Record HandlerError : Type := mkError {
  ErrorStatus : Z;
  ErrorMessage : ErrorResponse
}.

(** The pair of pointers a handler returns, success first; [None] is the
    nil pointer. *)
Definition Envelope : Type := (option HandlerSuccess * option HandlerError)%type.

Definition http_StatusOK : Z := 200.
Definition http_StatusCreated : Z := 201.
Definition http_StatusNoContent : Z := 204.
Definition http_StatusBadRequest : Z := 400.
Definition http_StatusUnauthorized : Z := 401.
Definition http_StatusForbidden : Z := 403.
Definition http_StatusNotFound : Z := 404.
Definition http_StatusConflict : Z := 409.
Definition http_StatusInternalServerError : Z := 500.

Definition Failure (status : Z) (code message detail : string) : Envelope :=
  (None, Some (mkError status (mkErrorResponse code message detail))).

Definition Success (status : Z) (d : Data) : Envelope :=
  (Some (mkSuccess status d), None).

(** ** The response writer *)

(** The calls a handler makes on [http.ResponseWriter], in order:
    [w.Header().Set(k, v)], [w.WriteHeader(code)] and [w.Write(bytes)]. *)
Inductive WCall : Type :=
  | SetHeader (k v : string)
  | WriteHeader (code : Z)
  | Write (bytes : string).

#[global] Instance WCall_eq_dec : EqDecision WCall.
Proof. solve_decision. Defined.

Definition is_WriteHeader (c : WCall) : bool :=
  match c with WriteHeader _ => true | _ => false end.

(** An informational status (1xx other than 101) is sent at once and does
    not commit the response. *)
Definition is_informational (code : Z) : bool :=
  (100 <=? code) && (code <=? 199) && negb (code =? 101).

(** net/http commits the status line at the first [WriteHeader] that is not
    informational, or at the first [Write] (with 200) when none came before
    it. *)
Fixpoint committed_status (calls : list WCall) : option Z :=
  match calls with
  | [] => None
  | WriteHeader code :: rest =>
      if is_informational code then committed_status rest else Some code
  | Write _ :: _ => Some http_StatusOK
  | SetHeader _ _ :: rest => committed_status rest
  end.

Definition wroteHeader (calls : list WCall) : bool :=
  bool_decide (is_Some (committed_status calls)).

(** net/http's [bodyAllowedForStatus]. *)
Definition bodyAllowedForStatus (status : Z) : bool :=
  if (100 <=? status) && (status <=? 199) then false
  else if status =? 204 then false
  else if status =? 304 then false
  else true.

(** How many times a status was sent to the writer. *)
Definition count_WriteHeader (calls : list WCall) : nat :=
  length (filter (fun c => is_WriteHeader c = true) calls).

(** ** The users table *)

(** A row of [users] without its primary key [id], which is the key of the
    map below; a query result is the pair of the two. *)
Record Row : Type := mkRow {
  row_name : string;
  row_email : string;
  row_password : string;
  row_role : string
}.

#[global] Instance Row_eq_dec : EqDecision Row.
Proof. solve_decision. Defined.

Definition row_id (kr : Z * Row) : Z := kr.1.

(** The pool: whether the database can be reached, the rows of [users] by
    primary key, and the next value of the id sequence.  Ids are integers
    without a bound of the column type.  The migrations
    that create the table are not among the sources; the defaults of the
    columns an INSERT may leave out are kept as fields ([None]: the column
    has no default and rejects NULL). *)
Record DB : Type := mkDB {
  reachable : bool;
  users : gmap Z Row;
  next_id : Z;
  default_password : option string;
  default_role : option string
}.

Inductive DbError : Type :=
  | ErrNoRows
  | PgError (code : string)
  | ErrConn.

#[global] Instance DbError_eq_dec : EqDecision DbError.
Proof. solve_decision. Defined.

Definition set_users (d : DB) (us : gmap Z Row) : DB :=
  {| reachable := reachable d; users := us; next_id := next_id d;
     default_password := default_password d; default_role := default_role d |}.

Definition bump_next_id (d : DB) : DB :=
  {| reachable := reachable d; users := users d; next_id := next_id d + 1;
     default_password := default_password d; default_role := default_role d |}.

(** Some other row already carries this email (the unique constraint the
    handlers report as SQLSTATE 23505). *)
Definition email_taken (us : gmap Z Row) (except : option Z) (email : string)
  : bool :=
  existsb (fun kr : Z * Row =>
             String.eqb (row_email kr.2) email
             && negb (bool_decide (Some kr.1 = except)))
          (map_to_list us).

Definition find_by_email (us : gmap Z Row) (email : string)
  : option (Z * Row) :=
  List.find (fun kr : Z * Row => String.eqb (row_email kr.2) email)
            (map_to_list us).

(** ** Computations *)

Record World : Type := mkWorld {
  rw : list WCall;
  db : DB
}.

Inductive Outcome (A : Type) : Type :=
  | Returned (a : A) (s : World)
  | Panicked (msg : string) (s : World).
Arguments Returned {A} a s.
Arguments Panicked {A} msg s.

Definition M (A : Type) : Type := World -> Outcome A.

Definition ret {A} (a : A) : M A := fun s => Returned a s.

Definition bind {A B} (m : M A) (k : A -> M B) : M B :=
  fun s =>
    match m s with
    | Returned a s' => k a s'
    | Panicked msg s' => Panicked msg s'
    end.

Definition panic {A} (msg : string) : M A := fun s => Panicked msg s.

Declare Scope go_scope.
Delimit Scope go_scope with go.
Notation "x <- m ;; k" := (bind m (fun x => k))
  (at level 100, m at next level, right associativity) : go_scope.
Notation "m ;; k" := (bind m (fun _ => k))
  (at level 100, right associativity) : go_scope.
Local Open Scope go_scope.

Definition get_db : M DB := fun s => Returned (db s) s.

Definition put_db (d : DB) : M unit :=
  fun s => Returned tt {| rw := rw s; db := d |}.

Definition get_calls : M (list WCall) := fun s => Returned (rw s) s.

Definition call (c : WCall) : M unit :=
  fun s => Returned tt {| rw := rw s ++ [c]; db := db s |}.

(** The type assertion [v.(string)], which panics on any other dynamic
    type, nil included. *)
Definition assert_string (v : GoValue) : M string :=
  match v with
  | VString s => ret s
  | _ => panic "interface conversion: interface {} is not string"
  end.

(** *** Writer operations *)

Definition w_Header_Set (k v : string) : M unit := call (SetHeader k v).

(** [WriteHeader]: a second call is ignored by net/http (it logs a
    superfluous call); a first call with a code outside 100..999 panics. *)
Definition w_WriteHeader (code : Z) : M unit :=
  calls <- get_calls ;;
  if negb (wroteHeader calls) && ((code <? 100) || (999 <? code))
  then panic "invalid WriteHeader code"
  else call (WriteHeader code).

Inductive WriteError : Type := ErrBodyNotAllowed.

(** [Write]: the bytes are refused when the committed status allows no
    body. *)
Definition w_Write (bytes : string) : M (option WriteError) :=
  calls <- get_calls ;;
  call (Write bytes) ;;
  match committed_status (calls ++ [Write bytes]) with
  | Some st =>
      if bodyAllowedForStatus st then ret None else ret (Some ErrBodyNotAllowed)
  | None => ret None
  end.

(** ** Standard-library helpers used by the handlers *)

(** [strings.Split(s, sep)] for a one-byte separator: the substrings
    between the separators, so one more piece than there are separators. *)
Fixpoint strings_Split (s : string) (sep : ascii) : list string :=
  match s with
  | EmptyString => [EmptyString]
  | String c rest =>
      if Ascii.eqb c sep then EmptyString :: strings_Split rest sep
      else match strings_Split rest sep with
           | [] => [String c EmptyString]
           | piece :: pieces => String c piece :: pieces
           end
  end.

Definition space : ascii := " "%char.

Definition digit_value (c : ascii) : option Z :=
  let n := Z.of_N (N_of_ascii c) in
  if (48 <=? n) && (n <=? 57) then Some (n - 48) else None.

Fixpoint parse_digits (acc : Z) (s : string) : option Z :=
  match s with
  | EmptyString => Some acc
  | String c rest =>
      match digit_value c with
      | Some d => parse_digits (acc * 10 + d) rest
      | None => None
      end
  end.

(** [strconv.Atoi] on a 64-bit platform: an optional sign, at least one
    decimal digit, and a value that fits [int]. *)
Definition strconv_Atoi (s : string) : option Z :=
  let in_range (n : Z) : option Z :=
    if (- 2 ^ 63 <=? n) && (n <=? 2 ^ 63 - 1) then Some n else None in
  match s with
  | EmptyString => None
  | String c rest =>
      if Ascii.eqb c "-"%char then
        match rest with
        | EmptyString => None
        | _ => n ← parse_digits 0 rest; in_range (- n)
        end
      else if Ascii.eqb c "+"%char then
        match rest with
        | EmptyString => None
        | _ => n ← parse_digits 0 rest; in_range n
        end
      else n ← parse_digits 0 s; in_range n
  end.

(** ** JSON web tokens (golang-jwt) *)

Inductive SigningMethod : Type :=
  | SigningMethodHMAC (alg : string)
  | SigningMethodRSA (alg : string)
  | SigningMethodRSAPSS (alg : string)
  | SigningMethodECDSA (alg : string)
  | SigningMethodEd25519
  | SigningMethodNone.

#[global] Instance SigningMethod_eq_dec : EqDecision SigningMethod.
Proof. solve_decision. Defined.

Definition is_HMAC (m : SigningMethod) : bool :=
  match m with SigningMethodHMAC _ => true | _ => false end.

(** [jwt.MapClaims]; the nil map reads like the empty one. *)
Abbreviation MapClaims := (gmap string GoValue).

Definition claim (c : MapClaims) (key : string) : GoValue :=
  default VNil (c !! key).

Record Token : Type := mkToken {
  Method : SigningMethod;
  Claims : MapClaims;
  SigningText : string;
  Signature : string;
  Valid : bool
}.

Inductive JwtError : Type :=
  | ErrTokenMalformed
  | ErrTokenUnverifiable
  | ErrTokenSignatureInvalid
  | ErrTokenExpired
  | ErrTokenNotValidYet
  | ErrInvalidType.

(** ** The platform

    What the handlers reach outside the repository.
    - [os_Getenv], [time_Now] (Unix seconds).
    - [jwt_ParseUnverified]: splitting and decoding the three segments of a
      token, without any check; [jwt_Verify method text signature key]: the
      signature check of a signing method; [jwt_SignedString]: signing.
    - [bcrypt_CompareHashAndPassword hash password]: [true] for a nil
      error.
    - [json_Marshal] of a non-nil payload and [json_Decode_*] of a request
      body into the handler's struct ([None]: the decoder's error). *)
Class Platform : Type := {
  os_Getenv : string -> string;
  time_Now : Z;
  jwt_ParseUnverified : string -> option Token;
  jwt_Verify : SigningMethod -> string -> string -> string -> bool;
  jwt_SignedString : SigningMethod -> MapClaims -> string -> option string;
  bcrypt_CompareHashAndPassword : string -> string -> bool;
  json_Marshal : Data -> string;
  json_Decode_userRequest : string -> option userRequest;
  json_Decode_loginRequest : string -> option loginRequest
}.

Section Pipeline.

Context `{P : Platform}.

(** *** golang-jwt: [Parse] *)

(** [MapClaims.parseNumericDate]: an absent claim and the number 0 give no
    date; a value that is not a number is a type error. *)
Definition parseNumericDate (c : MapClaims) (key : string)
  : JwtError + option Z :=
  match c !! key with
  | None => inr None
  | Some (VNumber n) => if n =? 0 then inr None else inr (Some n)
  | Some _ => inl ErrInvalidType
  end.

(** The validator with its default options: [exp] and [nbf] are checked
    when present. *)
Definition verifyExpiresAt (c : MapClaims) (now : Z) : option JwtError :=
  match parseNumericDate c "exp" with
  | inl e => Some e
  | inr None => None
  | inr (Some exp) => if now <? exp then None else Some ErrTokenExpired
  end.

Definition verifyNotBefore (c : MapClaims) (now : Z) : option JwtError :=
  match parseNumericDate c "nbf" with
  | inl e => Some e
  | inr None => None
  | inr (Some nbf) => if now <? nbf then Some ErrTokenNotValidYet else None
  end.

Definition jwt_Validate (c : MapClaims) : option JwtError :=
  match verifyExpiresAt c time_Now with
  | Some e => Some e
  | None => verifyNotBefore c time_Now
  end.

Inductive ParseResult : Type :=
  | ParseError (e : JwtError)
  | ParseOk (t : Token).

Definition set_Valid (t : Token) : Token :=
  {| Method := Method t; Claims := Claims t; SigningText := SigningText t;
     Signature := Signature t; Valid := true |}.

(** [jwt.Parse(tokenString, keyFunc)]: decode, ask [keyFunc] for the key,
    check the signature with the token's own method, validate the claims,
    and only then mark the token valid. *)
Definition jwt_Parse (tokenString : string) (keyFunc : Token -> option string)
  : ParseResult :=
  match jwt_ParseUnverified tokenString with
  | None => ParseError ErrTokenMalformed
  | Some token =>
      match keyFunc token with
      | None => ParseError ErrTokenUnverifiable
      | Some key =>
          if jwt_Verify (Method token) (SigningText token) (Signature token) key
          then match jwt_Validate (Claims token) with
               | Some e => ParseError e
               | None => ParseOk (set_Valid token)
               end
          else ParseError ErrTokenSignatureInvalid
      end
  end.

(** *** apiHandler.go *)

Definition ApiHandlerFunc : Type := Request -> M Envelope.
Definition HttpHandler : Type := Request -> M unit.
Definition ApiMiddlewareFunc : Type := ApiHandlerFunc -> ApiHandlerFunc.

Definition newline : string := String (ascii_of_nat 10) EmptyString.

(** [json.NewEncoder(w).Encode(v)]: the encoding of [v] followed by a
    newline goes to the writer in one [Write]; the nil interface encodes as
    the JSON value null.  The result is the write error, if any. *)
Definition json_Encode (v : Data) : M (option WriteError) :=
  w_Write (String.append
             (match v with DNil => "null" | _ => json_Marshal v end)
             newline).

Definition ApiHandlerAdapter (handler : ApiHandlerFunc) : HttpHandler :=
  fun r =>
    w_Header_Set "Content-Type" "application/json" ;;
    res <- handler r ;;
    match res with
    | (_, Some err) =>
        w_WriteHeader (ErrorStatus err) ;;
        json_Encode (DError (ErrorMessage err)) ;;
        ret tt
    | (Some success, None) =>
        w_WriteHeader (SuccessStatus success) ;;
        json_Encode (SuccessData success) ;;
        ret tt
    | (None, None) => ret tt
    end.

Definition is_nil (d : Data) : bool :=
  match d with DNil => true | _ => false end.

Definition MiddlewareAdapter (mw : ApiMiddlewareFunc) (next : HttpHandler)
  : HttpHandler :=
  let handler : ApiHandlerFunc := fun r => next r ;; ret (None, None) in
  let wrapped := mw handler in
  fun r =>
    w_Header_Set "Content-Type" "application/json" ;;
    res <- wrapped r ;;
    match res with
    | (_, Some err) =>
        w_WriteHeader (ErrorStatus err) ;;
        json_Encode (DError (ErrorMessage err)) ;;
        ret tt
    | (Some success, None) =>
        w_WriteHeader (SuccessStatus success) ;;
        if negb (is_nil (SuccessData success))
        then json_Encode (SuccessData success) ;; ret tt
        else ret tt
    | (None, None) => ret tt
    end.

(** The key function [VerifyJwtToken] hands to [jwt.Parse]: only HMAC
    methods get the secret. *)
Definition keyFunc (token : Token) : option string :=
  if is_HMAC (Method token) then Some (os_Getenv "JWT_SECRET") else None.

(** [VerifyJwtToken]: the claims and the error, either of which may be
    nil. *)
Definition VerifyJwtToken (tokenString : string)
  : MapClaims * option JwtError :=
  match jwt_Parse tokenString keyFunc with
  | ParseError e => (∅, Some e)
  | ParseOk token =>
      if Valid token then (Claims token, None) else (∅, None)
  end.

(** *** middlewares.go *)

Definition OnlyAdminMiddleware (next : ApiHandlerFunc) : ApiHandlerFunc :=
  fun r =>
    role <- assert_string (context_Value (Ctx r) ContextRoleKey) ;;
    if negb (String.eqb role "admin")
    then ret (Failure http_StatusForbidden "E403" "Forbidden"
                      "You are not an admin")
    else next r.

Definition JWTAuthMiddleware (next : ApiHandlerFunc) : ApiHandlerFunc :=
  fun r =>
    let authHeader := Header_Get r "Authorization" in
    if String.eqb authHeader ""
    then ret (Failure http_StatusUnauthorized "E401" "Unauthorized"
                      "Missing token")
    else
      let parts := strings_Split authHeader space in
      if negb (Nat.eqb (length parts) 2)
         || negb (String.eqb (nth 0 parts "") "Bearer")
      then ret (Failure http_StatusUnauthorized "E401" "Unauthorized"
                        "Invalid token format")
      else
        let tokenSting := nth 1 parts "" in
        match VerifyJwtToken tokenSting with
        | (_, Some _) =>
            ret (Failure http_StatusUnauthorized "E401" "Unauthorized"
                         "Invalid token")
        | (claims, None) =>
            username <- assert_string (claim claims "username") ;;
            let ctx := context_WithValue (Ctx r) ContextUsernameKey
                                         (VString username) in
            role <- assert_string (claim claims "role") ;;
            let ctx := context_WithValue ctx ContextRoleKey (VString role) in
            let r := WithContext r ctx in
            next r ;;
            ret (Success http_StatusOK DNil)
        end.

(** *** pgx: the statements the handlers run *)

(** [QueryRow(...).Scan] for a SELECT by primary key: [ErrNoRows] when no
    row matches. *)
Definition select_by_id (id : Z) : M (DbError + Z * Row) :=
  d <- get_db ;;
  if negb (reachable d) then ret (inl ErrConn)
  else match users d !! id with
       | None => ret (inl ErrNoRows)
       | Some row => ret (inr (id, row))
       end.

Definition select_by_email (email : string) : M (DbError + Z * Row) :=
  d <- get_db ;;
  if negb (reachable d) then ret (inl ErrConn)
  else match find_by_email (users d) email with
       | None => ret (inl ErrNoRows)
       | Some row => ret (inr row)
       end.

(** [Query] for all rows. *)
Definition select_all : M (DbError + list (Z * Row)) :=
  d <- get_db ;;
  if negb (reachable d) then ret (inl ErrConn)
  else ret (inr (map_to_list (users d))).

(** [Exec] of the DELETE: the error is nil whenever the statement ran,
    whatever the number of rows it removed; [Exec] does not report
    [ErrNoRows]. *)
Definition exec_delete (id : Z) : M (option DbError) :=
  d <- get_db ;;
  if negb (reachable d) then ret (Some ErrConn)
  else put_db (set_users d (delete id (users d))) ;; ret None.

(** [QueryRow(...).Scan] for UPDATE ... RETURNING. *)
Definition update_returning (name email : string) (id : Z)
  : M (DbError + Z * Row) :=
  d <- get_db ;;
  if negb (reachable d) then ret (inl ErrConn)
  else match users d !! id with
       | None => ret (inl ErrNoRows)
       | Some row =>
           if email_taken (users d) (Some id) email
           then ret (inl (PgError "23505"))
           else
             let row' := mkRow name email (row_password row) (row_role row) in
             put_db (set_users d (<[id := row']> (users d))) ;;
             ret (inr (id, row'))
       end.

(** [QueryRow(...).Scan] for INSERT (name, email) ... RETURNING. *)
Definition insert_returning (name email : string)
  : M (DbError + Z * Row) :=
  d <- get_db ;;
  if negb (reachable d) then ret (inl ErrConn)
  else match default_password d, default_role d with
       | Some password, Some role =>
           let id := next_id d in
           put_db (bump_next_id d) ;;
           if email_taken (users d) None email
              || bool_decide (is_Some (users d !! id))
           then ret (inl (PgError "23505"))
           else
             let row := mkRow name email password role in
             put_db (set_users (bump_next_id d) (<[id := row]> (users d))) ;;
             ret (inr (id, row))
       | _, _ => ret (inl (PgError "23502"))
       end.

(** *** userHandler.go *)

Definition E500 : Envelope :=
  Failure http_StatusInternalServerError "E500" "Internal Server Error"
          "Something went wrong. Contact support or try again later".

Definition not_found (idStr : string) : Envelope :=
  Failure http_StatusNotFound "E404" "Not found"
          (String.append "User with id " (String.append idStr " not found")).

Definition getMockUser : ApiHandlerFunc :=
  fun r =>
    let shouldReturnUser := true in
    if shouldReturnUser
    then ret (Success http_StatusOK
                      (DUser (mkUser 1 "Yan" "XO2iM@example.com" "")))
    else ret (Failure http_StatusNotFound "E404" "User not found" "").

Definition insertUser : ApiHandlerFunc :=
  fun r =>
    match json_Decode_userRequest (Body r) with
    | None =>
        ret (Failure http_StatusBadRequest "E400" "Invalid request body"
                     "Not a valid JSON")
    | Some insertUserReq =>
        let name := reqName insertUserReq in
        let email := reqEmail insertUserReq in
        if String.eqb name "" || String.eqb email ""
        then ret (Failure http_StatusBadRequest "E400" "Invalid request body"
                          "name and email are required")
        else
          res <- insert_returning name email ;;
          match res with
          | inl (PgError code) =>
              if String.eqb code "23505"
              then ret (Failure http_StatusConflict "E409" "Conflict"
                  "Email is already in use. Please use a different email.")
              else ret E500
          | inl _ => ret E500
          | inr row =>
              ret (Success http_StatusCreated
                           (DUser (mkUser (row_id row) (row_name row.2)
                                          (row_email row.2) "")))
          end
    end.

Definition getAllUsers : ApiHandlerFunc :=
  fun r =>
    res <- select_all ;;
    match res with
    | inl _ => ret E500
    | inr rows =>
        let allUsers :=
          (fun row : Z * Row =>
             mkUser (row_id row) (row_name row.2) (row_email row.2)
                    (row_role row.2)) <$> rows in
        ret (Success http_StatusOK (DUsers allUsers))
    end.

Definition bad_id : Envelope :=
  Failure http_StatusBadRequest "E400" "Not a valid id"
          "Path parameter 'id' must be an integer".

Definition getUser : ApiHandlerFunc :=
  fun r =>
    let idStr := chi_URLParam r "id" in
    match strconv_Atoi idStr with
    | None => ret bad_id
    | Some id =>
        res <- select_by_id id ;;
        match res with
        | inl ErrNoRows => ret (not_found idStr)
        | inl _ => ret E500
        | inr row =>
            ret (Success http_StatusOK
                         (DUser (mkUser (row_id row) (row_name row.2)
                                        (row_email row.2) "")))
        end
    end.

Definition forbidden_update : Envelope :=
  Failure http_StatusForbidden "E403" "Forbidden"
          "You are no authorized to update another user than yourself".

Definition updateUser : ApiHandlerFunc :=
  fun r =>
    let idStr := chi_URLParam r "id" in
    match strconv_Atoi idStr with
    | None => ret bad_id
    | Some id =>
        match json_Decode_userRequest (Body r) with
        | None =>
            ret (Failure http_StatusBadRequest "E400" "Bad request"
                         "Invalid request body")
        | Some updateUserReq =>
            if String.eqb (reqName updateUserReq) ""
               || String.eqb (reqEmail updateUserReq) ""
            then ret (Failure http_StatusBadRequest "E400" "Bad request"
                              "name and email are required")
            else
              res <- select_by_id id ;;
              match res with
              | inl ErrNoRows => ret (not_found idStr)
              | inl _ => ret E500
              | inr foundUser =>
                  if negb (row_id foundUser =? id)
                     || negb (iface_eq_string
                                (context_Value (Ctx r) (KString "role"))
                                "admin")
                  then ret forbidden_update
                  else
                    res <- update_returning (reqName updateUserReq)
                                            (reqEmail updateUserReq) id ;;
                    match res with
                    | inl _ => ret E500
                    | inr updatedUser =>
                        ret (Success http_StatusOK
                               (DUser (mkUser (row_id updatedUser)
                                              (row_name updatedUser.2)
                                              (row_email updatedUser.2) "")))
                    end
              end
        end
    end.

Definition deleteUser : ApiHandlerFunc :=
  fun r =>
    let idStr := chi_URLParam r "id" in
    match strconv_Atoi idStr with
    | None => ret bad_id
    | Some id =>
        err <- exec_delete id ;;
        match err with
        | Some ErrNoRows => ret (not_found idStr)
        | Some _ => ret E500
        | None => ret (Success http_StatusNoContent DNil)
        end
    end.

(** [logSomething] logs a line and hands over to the next handler. *)
Definition logSomething (next : HttpHandler) : HttpHandler :=
  fun r => next r.

(** The routes registered by [UserRouter]. *)
Inductive UserRoute : Type :=
  | POST_users
  | GET_users
  | GET_user
  | PUT_user
  | DELETE_user
  | GET_mock.

Definition route_middlewares (rt : UserRoute) : list ApiMiddlewareFunc :=
  match rt with
  | POST_users => [JWTAuthMiddleware; OnlyAdminMiddleware]
  | GET_users => [JWTAuthMiddleware]
  | GET_user => [JWTAuthMiddleware]
  | PUT_user => [JWTAuthMiddleware]
  | DELETE_user => [JWTAuthMiddleware; OnlyAdminMiddleware]
  | GET_mock => [JWTAuthMiddleware; OnlyAdminMiddleware]
  end.

Definition route_handler (rt : UserRoute) : ApiHandlerFunc :=
  match rt with
  | POST_users => insertUser
  | GET_users => getAllUsers
  | GET_user => getUser
  | PUT_user => updateUser
  | DELETE_user => deleteUser
  | GET_mock => getMockUser
  end.

(** chi's [r.With(m1, m2).HandleFunc(pattern, h)] serves [m1 (m2 h)], under
    the router-wide [logSomething]. *)
Definition UserRouter (rt : UserRoute) : HttpHandler :=
  logSomething
    (foldr (fun mw h => MiddlewareAdapter mw h)
           (ApiHandlerAdapter (route_handler rt))
           (route_middlewares rt)).

(** *** authenticationHandler.go *)

(** [CreateJwtToken]: claims with a 15-minute expiry, signed with HS256
    and the secret of the environment; [None] is the signing error. *)
Definition CreateJwtToken (username role : string) : option string :=
  let claims : MapClaims :=
    <["username" := VString username]>
      (<["role" := VString role]>
         (<["exp" := VNumber (time_Now + 15 * 60)]> ∅)) in
  jwt_SignedString (SigningMethodHMAC "HS256") claims (os_Getenv "JWT_SECRET").

Definition bad_credentials : Envelope :=
  Failure http_StatusUnauthorized "E401" "Unauthorized"
          "Invalid email or password".

Definition Login : ApiHandlerFunc :=
  fun r =>
    match json_Decode_loginRequest (Body r) with
    | None =>
        ret (Failure http_StatusBadRequest "E400" "Invalid request body"
                     "Not a valid JSON")
    | Some loginReq =>
        if String.eqb (loginEmail loginReq) ""
           || String.eqb (loginPassword loginReq) ""
        then ret (Failure http_StatusBadRequest "E400" "Invalid request body"
                          "email and password are required")
        else
          res <- select_by_email (loginEmail loginReq) ;;
          match res with
          | inl ErrNoRows => ret bad_credentials
          | inl _ => ret E500
          | inr found =>
              let hashedPassword := row_password found.2 in
              if negb (bcrypt_CompareHashAndPassword
                         hashedPassword (loginPassword loginReq))
              then ret bad_credentials
              else
                match CreateJwtToken (row_name found.2) (row_role found.2) with
                | None => ret E500
                | Some token =>
                    ret (Success http_StatusOK
                           (DAuth (mkAuthResponse "Login successful" token)))
                end
          end
    end.

End Pipeline.

(** ** A small platform and sample data

    A concrete [Platform] on which the definitions run: tokens are a few
    fixed strings, a signature is good when it equals the key, a hash is
    the password behind a prefix, and a body is two comma-separated
    fields. *)
Module Sample.

Definition claims_of (username role : string) (exp : Z) : MapClaims :=
  <["username" := VString username]>
    (<["role" := VString role]> (<["exp" := VNumber exp]> ∅)).

Definition parse_token (s : string) : option Token :=
  if String.eqb s "tok.admin" then
    Some (mkToken (SigningMethodHMAC "HS256") (claims_of "root" "admin" 2000)
                  "tok" "s3cret" false)
  else if String.eqb s "tok.user" then
    Some (mkToken (SigningMethodHMAC "HS256") (claims_of "ann" "user" 2000)
                  "tok" "s3cret" false)
  else if String.eqb s "tok.expired" then
    Some (mkToken (SigningMethodHMAC "HS256") (claims_of "root" "admin" 500)
                  "tok" "s3cret" false)
  else if String.eqb s "tok.forged" then
    Some (mkToken (SigningMethodHMAC "HS256") (claims_of "root" "admin" 2000)
                  "tok" "guess" false)
  else if String.eqb s "tok.rsa" then
    Some (mkToken (SigningMethodRSA "RS256") (claims_of "root" "admin" 2000)
                  "tok" "s3cret" false)
  else None.

Definition two_fields (s : string) : option (string * string) :=
  match strings_Split s ","%char with
  | [a; b] => Some (a, b)
  | _ => None
  end.

Definition platform : Platform := {|
  os_Getenv := fun k => if String.eqb k "JWT_SECRET" then "s3cret" else "";
  time_Now := 1000;
  jwt_ParseUnverified := parse_token;
  jwt_Verify := fun _ _ signature key => String.eqb signature key;
  jwt_SignedString := fun _ c _ =>
    if iface_eq_string (claim c "role") "admin"
    then Some "tok.admin" else Some "tok.user";
  bcrypt_CompareHashAndPassword := fun hash password =>
    String.eqb hash (String.append "bcrypt:" password);
  json_Marshal := fun d =>
    match d with
    | DNil => "null"
    | DUser u => String.append "user " (Name u)
    | DUsers _ => "users"
    | DAuth a => String.append "token " (authToken a)
    | DHealth h => h
    | DError e => String.append (Code e) (String.append " " (Detail e))
    end;
  json_Decode_userRequest := fun b =>
    p ← two_fields b; Some (mkUserRequest p.1 p.2);
  json_Decode_loginRequest := fun b =>
    p ← two_fields b; Some (mkLoginRequest p.1 p.2)
|}.

Definition table : gmap Z Row :=
  <[1 := mkRow "root" "root@x.com" "bcrypt:toor" "admin"]>
    (<[2 := mkRow "ann" "ann@x.com" "bcrypt:pw" "user"]> ∅).

Definition database : DB := mkDB true table 3 (Some "") (Some "user").

Definition world : World := mkWorld [] database.

(** The context of a request as the server and the router hand it over:
    only keys of their own. *)
Definition server_context : Context :=
  [(KForeign "chi.RouteCtxKey", VNil); (KForeign "http.ServerContextKey", VNil)].

Definition request (authorization : list string) (id body : string) : Request :=
  mkRequest (match authorization with
             | [] => ∅
             | _ => {["Authorization" := authorization]}
             end)
            {["id" := id]} body server_context.

Definition bearer (token : string) : list string :=
  [String.append "Bearer " token].

End Sample.

(** ** Vocabulary of the properties *)

(** An earlier revision of authenticationHandler.go, kept among the
    sources: its [Login] sent the supplied password into the query, next to
    the email, and accepted whatever row came back. *)
Module EarlierRevision.

Definition select_by_email_and_password (email password : string)
  : M (DbError + Z * Row) :=
  (d <- get_db ;;
   if negb (reachable d) then ret (inl ErrConn)
   else match List.find (fun kr : Z * Row =>
                           String.eqb (row_email kr.2) email
                           && String.eqb (row_password kr.2) password)
                        (map_to_list (users d)) with
        | None => ret (inl ErrNoRows)
        | Some row => ret (inr row)
        end)%go.

Definition Login `{P : Platform} : ApiHandlerFunc :=
  fun r =>
    (match json_Decode_loginRequest (Body r) with
     | None =>
         ret (Failure http_StatusBadRequest "E400" "Invalid request body"
                      "Not a valid JSON")
     | Some loginReq =>
         if String.eqb (loginEmail loginReq) ""
            || String.eqb (loginPassword loginReq) ""
         then ret (Failure http_StatusBadRequest "E400" "Invalid request body"
                           "email and password are required")
         else
           res <- select_by_email_and_password (loginEmail loginReq)
                                               (loginPassword loginReq) ;;
           match res with
           | inl ErrNoRows => ret bad_credentials
           | inl _ => ret E500
           | inr found =>
               match CreateJwtToken (row_name found.2) (row_role found.2) with
               | None => ret E500
               | Some token =>
                   ret (Success http_StatusOK
                          (DAuth (mkAuthResponse "Login successful" token)))
               end
           end
     end)%go.

End EarlierRevision.

Section Vocabulary.

Context `{P : Platform}.

Fixpoint no_space (s : string) : bool :=
  match s with
  | EmptyString => true
  | String c rest => negb (Ascii.eqb c space) && no_space rest
  end.

Fixpoint strip_prefix (p s : string) : option string :=
  match p, s with
  | EmptyString, _ => Some s
  | String a p', String b s' => if Ascii.eqb a b then strip_prefix p' s' else None
  | String _ _, EmptyString => None
  end.

(** The header value has the shape [Bearer <token>]: the word, one space,
    and a token without spaces. *)
Definition bearer_token (h : string) : option string :=
  match strip_prefix "Bearer " h with
  | Some token => if no_space token then Some token else None
  | None => None
  end.

(** Reasons for which a token fails verification: it does not decode, its
    algorithm is not an HMAC one, its signature does not match the server's
    secret, it has expired, or [VerifyJwtToken] reports an error for any
    other reason. *)
Inductive TokenDefect (tokenString : string) : Prop :=
  | Undecodable :
      jwt_ParseUnverified tokenString = None ->
      TokenDefect tokenString
  | ForeignAlgorithm (token : Token) :
      jwt_ParseUnverified tokenString = Some token ->
      is_HMAC (Method token) = false ->
      TokenDefect tokenString
  | WrongSignature (token : Token) :
      jwt_ParseUnverified tokenString = Some token ->
      jwt_Verify (Method token) (SigningText token) (Signature token)
                 (os_Getenv "JWT_SECRET") = false ->
      TokenDefect tokenString
  | Expired (token : Token) (exp : Z) :
      jwt_ParseUnverified tokenString = Some token ->
      Claims token !! "exp" = Some (VNumber exp) ->
      exp <> 0 ->
      exp <= time_Now ->
      TokenDefect tokenString
  | Rejected (e : JwtError) :
      (VerifyJwtToken tokenString).2 = Some e ->
      TokenDefect tokenString.

(** The three ways in which a request fails authentication, each with the
    detail the response carries. *)
Inductive AuthFailure (r : Request) : string -> Prop :=
  | MissingToken :
      Header_Get r "Authorization" = "" ->
      AuthFailure r "Missing token"
  | InvalidTokenFormat :
      Header_Get r "Authorization" <> "" ->
      bearer_token (Header_Get r "Authorization") = None ->
      AuthFailure r "Invalid token format"
  | InvalidToken (tokenString : string) :
      Header_Get r "Authorization" <> "" ->
      bearer_token (Header_Get r "Authorization") = Some tokenString ->
      TokenDefect tokenString ->
      AuthFailure r "Invalid token".

(** The request carries a bearer token that [VerifyJwtToken] accepts. *)
Definition valid_authorization (r : Request) : bool :=
  match bearer_token (Header_Get r "Authorization") with
  | Some tokenString => bool_decide ((VerifyJwtToken tokenString).2 = None)
  | None => false
  end.

(** The request that [JWTAuthMiddleware] hands to [next]: the identity is
    stored under the two keys of type [contextKey]. *)
Definition with_identity (r : Request) (username role : string) : Request :=
  WithContext r
    (context_WithValue
       (context_WithValue (Ctx r) ContextUsernameKey (VString username))
       ContextRoleKey (VString role)).

(** The request is authenticated as [username] with [role]: its token
    verifies and carries both as strings. *)
Definition authenticated (r : Request) (username role : string) : Prop :=
  exists tokenString claims,
    bearer_token (Header_Get r "Authorization") = Some tokenString
    /\ VerifyJwtToken tokenString = (claims, None)
    /\ claim claims "username" = VString username
    /\ claim claims "role" = VString role.

(** A context as it arrives from the server and the router: no key of
    this package, and no key of type [string]. *)
Definition is_foreign (k : CtxKey) : bool :=
  match k with KForeign _ => true | _ => false end.

Definition from_server (c : Context) : bool :=
  forallb (fun kv : CtxKey * GoValue => is_foreign kv.1) c.

(** The envelope is the failure written [Failure{status, code, text}]:
    status and code as given, and the text as its message or its detail. *)
Definition is_failure (env : Envelope) (status : Z) (code text : string)
  : Prop :=
  match env with
  | (None, Some err) =>
      ErrorStatus err = status
      /\ Code (ErrorMessage err) = code
      /\ (Message (ErrorMessage err) = text \/ Detail (ErrorMessage err) = text)
  | _ => False
  end.

(** The world after a handler rendered an envelope on the writer. *)
Definition wrote (w : World) (calls : list WCall) : World :=
  {| rw := rw w ++ calls; db := db w |}.

Definition content_type : WCall := SetHeader "Content-Type" "application/json".

(** The bytes the encoder sends for a payload. *)
Definition encoded (v : Data) : string :=
  String.append (match v with DNil => "null" | _ => json_Marshal v end) newline.

Definition error_body (code message detail : string) : string :=
  encoded (DError (mkErrorResponse code message detail)).

(** A computation that returns, leaves the writer as it found it, and
    whose result satisfies [Q]. *)
Definition returns_quietly {A} (Q : A -> Prop) (m : M A) : Prop :=
  forall w, exists a w', m w = Returned a w' /\ rw w' = rw w /\ Q a.

(** An envelope the adapters can render: one of the two pointers, with a
    status the writer accepts. *)
Definition renderable (env : Envelope) : Prop :=
  match env with
  | (Some success, None) => 100 <= SuccessStatus success <= 999
  | (None, Some err) => 100 <= ErrorStatus err <= 999
  | _ => False
  end.

End Vocabulary.

(** ** The rest of the package: accounts, startup *)

Record newAccountRequest : Type := mkNewAccountRequest {
  newName : string;
  newEmail : string;
  newPassword : string
}.

(** What account creation needs beyond [Platform]:
    [bcrypt_GenerateFromPassword] ([None]: its error) and the decoder of
    the registration body. *)
Class AccountPlatform : Type := {
  bcrypt_GenerateFromPassword : string -> option string;
  json_Decode_newAccountRequest : string -> option newAccountRequest
}.

(** The same platform with the clock at [t]. *)
Definition at_time (P : Platform) (t : Z) : Platform := {|
  os_Getenv := @os_Getenv P;
  time_Now := t;
  jwt_ParseUnverified := @jwt_ParseUnverified P;
  jwt_Verify := @jwt_Verify P;
  jwt_SignedString := @jwt_SignedString P;
  bcrypt_CompareHashAndPassword := @bcrypt_CompareHashAndPassword P;
  json_Marshal := @json_Marshal P;
  json_Decode_userRequest := @json_Decode_userRequest P;
  json_Decode_loginRequest := @json_Decode_loginRequest P
|}.

(** The claims [CreateJwtToken] signs. *)
Definition issued_claims (username role : string) (now : Z) : MapClaims :=
  <["username" := VString username]>
    (<["role" := VString role]> (<["exp" := VNumber (now + 15 * 60)]> ∅)).

(** The table has a row with the role admin. *)
Definition has_admin (us : gmap Z Row) : bool :=
  existsb (fun kr : Z * Row => String.eqb (row_role kr.2) "admin")
          (map_to_list us).

(** The string is a decimal numeral with an optional sign. *)
Definition all_digits (s : string) : bool :=
  match parse_digits 0 s with Some _ => true | None => false end.

Definition decimal_shape (s : string) : bool :=
  match s with
  | EmptyString => false
  | String c rest =>
      if Ascii.eqb c "-"%char || Ascii.eqb c "+"%char
      then match rest with
           | EmptyString => false
           | _ => all_digits rest
           end
      else all_digits s
  end.

(** The status an envelope is rendered with (0 for the pair of nil
    pointers, which is not rendered). *)
Definition envelope_status (env : Envelope) : Z :=
  match env with
  | (_, Some err) => ErrorStatus err
  | (Some success, None) => SuccessStatus success
  | (None, None) => 0
  end.

(** A computation that returns and leaves the whole world, table and
    writer, as it found it. *)
Definition reads_only {A} (m : M A) : Prop :=
  forall w, exists a, m w = Returned a w.

(** The world with another table. *)
Definition with_users (w : World) (us : gmap Z Row) : World :=
  {| rw := rw w; db := set_users (db w) us |}.

(** What the handlers show of a stored row: no role, except in the
    listing. *)
Definition shown (id : Z) (row : Row) : user :=
  mkUser id (row_name row) (row_email row) "".

Definition listed (kr : Z * Row) : user :=
  mkUser kr.1 (row_name kr.2) (row_email kr.2) (row_role kr.2).

(** The statuses each handler of [UserRouter] has a branch for that can
    be taken. *)
Definition route_statuses (rt : UserRoute) : list Z :=
  match rt with
  | POST_users => [400; 409; 500; 201]
  | GET_users => [500; 200]
  | GET_user => [400; 404; 500; 200]
  | PUT_user => [400; 404; 500; 403; 200]
  | DELETE_user => [400; 500; 204]
  | GET_mock => [200]
  end.

Section Accounts.

Context `{P : Platform} `{A : AccountPlatform}.

(** [QueryRow(...).Scan] or [Exec] of the INSERT that gives all four
    columns; the id comes from the sequence. *)
Definition insert_account (name email password role : string)
  : M (DbError + Z * Row) :=
  d <- get_db ;;
  if negb (reachable d) then ret (inl ErrConn)
  else
    let id := next_id d in
    put_db (bump_next_id d) ;;
    if email_taken (users d) None email
       || bool_decide (is_Some (users d !! id))
    then ret (inl (PgError "23505"))
    else
      let row := mkRow name email password role in
      put_db (set_users (bump_next_id d) (<[id := row]> (users d))) ;;
      ret (inr (id, row)).

(** [SELECT COUNT( * ) FROM users WHERE role = 'admin']. *)
Definition select_count_admins : M (DbError + Z) :=
  d <- get_db ;;
  if negb (reachable d) then ret (inl ErrConn)
  else ret (inr (Z.of_nat
                   (length (List.filter
                              (fun kr : Z * Row =>
                                 String.eqb (row_role kr.2) "admin")
                              (map_to_list (users d)))))).

(** *** authenticationHandler.go: [RegisterNewAccount] *)

Definition RegisterNewAccount : ApiHandlerFunc :=
  fun r =>
    match json_Decode_newAccountRequest (Body r) with
    | None =>
        ret (Failure http_StatusBadRequest "E400" "Invalid request body"
                     "Not a valid JSON")
    | Some newAccountReq =>
        if String.eqb (newEmail newAccountReq) ""
           || String.eqb (newPassword newAccountReq) ""
           || String.eqb (newName newAccountReq) ""
        then ret (Failure http_StatusBadRequest "E400" "Invalid request body"
                          "email, name and password are required")
        else
          match bcrypt_GenerateFromPassword (newPassword newAccountReq) with
          | None => ret E500
          | Some encryptedPassword =>
              res <- insert_account (newName newAccountReq)
                                    (newEmail newAccountReq)
                                    encryptedPassword "user" ;;
              match res with
              | inl (PgError code) =>
                  if String.eqb code "23505"
                  then ret (Failure http_StatusConflict "E409" "Conflict"
                    "Email is already in use. Please use a different email.")
                  else ret E500
              | inl _ => ret E500
              | inr insertedAccount =>
                  match CreateJwtToken (row_name insertedAccount.2)
                                       (row_role insertedAccount.2) with
                  | None => ret E500
                  | Some token =>
                      ret (Success http_StatusCreated
                             (DAuth (mkAuthResponse
                                       "Account created successfully" token)))
                  end
              end
          end
    end.

(** The routes registered by [AuthRouter]. *)
Inductive AuthRoute : Type :=
  | POST_register
  | POST_login.

Definition AuthRouter (rt : AuthRoute) : HttpHandler :=
  match rt with
  | POST_register => ApiHandlerAdapter RegisterNewAccount
  | POST_login => ApiHandlerAdapter Login
  end.

(** *** indexHandler.go *)

Definition HealthCheck : ApiHandlerFunc :=
  fun r => ret (Success http_StatusOK (DHealth "Alive")).

(** *** main.go: [ensureAdminExists] *)

Inductive StartupError : Type :=
  | DbFailure (e : DbError)
  | HashFailure.

Definition ensureAdminExists : M (option StartupError) :=
  res <- select_count_admins ;;
  match res with
  | inl e => ret (Some (DbFailure e))
  | inr count =>
      if count =? 0
      then
        match bcrypt_GenerateFromPassword (os_Getenv "ADMIN_PASSWORD") with
        | None => ret (Some HashFailure)
        | Some hashedPassword =>
            res <- insert_account "Admin" (os_Getenv "ADMIN_EMAIL")
                                  hashedPassword "admin" ;;
            match res with
            | inl e => ret (Some (DbFailure e))
            | inr _ => ret None
            end
        end
      else ret None
  end.

End Accounts.

Module SampleAccounts.

Definition three_fields (s : string) : option newAccountRequest :=
  match strings_Split s ","%char with
  | [a; b; c] => Some (mkNewAccountRequest a b c)
  | _ => None
  end.

Definition platform : AccountPlatform := {|
  bcrypt_GenerateFromPassword := fun password =>
    Some (String.append "bcrypt:" password);
  json_Decode_newAccountRequest := three_fields
|}.

(** The sample platform with the variables of the admin bootstrap, and
    the clock where a token issued now carries the expiry 2000. *)
Definition startup : Platform := {|
  os_Getenv := fun k =>
    if String.eqb k "JWT_SECRET" then "s3cret"
    else if String.eqb k "ADMIN_EMAIL" then "root@x.com"
    else if String.eqb k "ADMIN_PASSWORD" then "toor"
    else "";
  time_Now := 1100;
  jwt_ParseUnverified := Sample.parse_token;
  jwt_Verify := fun _ _ signature key => String.eqb signature key;
  jwt_SignedString := fun _ c _ =>
    if iface_eq_string (claim c "role") "admin"
    then Some "tok.admin" else Some "tok.user";
  bcrypt_CompareHashAndPassword := fun hash password =>
    String.eqb hash (String.append "bcrypt:" password);
  json_Marshal := @json_Marshal Sample.platform;
  json_Decode_userRequest := @json_Decode_userRequest Sample.platform;
  json_Decode_loginRequest := @json_Decode_loginRequest Sample.platform
|}.

(** The startup platform with one more token: well signed, not expired,
    and without username or role. *)
Definition with_bare_token : Platform := {|
  os_Getenv := @os_Getenv startup;
  time_Now := 1100;
  jwt_ParseUnverified := fun s =>
    if String.eqb s "tok.bare"
    then Some (mkToken (SigningMethodHMAC "HS256")
                       (<["exp" := VNumber 2000]> ∅) "tok" "s3cret" false)
    else Sample.parse_token s;
  jwt_Verify := @jwt_Verify startup;
  jwt_SignedString := @jwt_SignedString startup;
  bcrypt_CompareHashAndPassword := @bcrypt_CompareHashAndPassword startup;
  json_Marshal := @json_Marshal startup;
  json_Decode_userRequest := @json_Decode_userRequest startup;
  json_Decode_loginRequest := @json_Decode_loginRequest startup
|}.

(** A table with one ordinary user and no admin. *)
Definition no_admin : DB :=
  mkDB true (<[2 := mkRow "ann" "ann@x.com" "bcrypt:pw" "user"]> ∅) 3
       (Some "") (Some "user").

End SampleAccounts.

(** * Properties *)

(** Closed goals over the sample platform are settled by evaluation. *)
Ltac evaluate := vm_compute; try reflexivity; try discriminate.

Ltac authenticate token username role :=
  exists token, (Sample.claims_of username role 2000);
  repeat split; evaluate.

(** ** Strings *)

Lemma strings_Split_nonempty (s : string) (sep : ascii) :
  strings_Split s sep <> [].
Proof.
  destruct s as [|c rest]; simpl; [discriminate|].
  destruct (Ascii.eqb c sep); [discriminate|].
  destruct (strings_Split rest sep); discriminate.
Qed.

Lemma strings_Split_no_space (s : string) :
  no_space s = true -> strings_Split s space = [s].
Proof.
  induction s as [|c rest IH]; simpl; [reflexivity|].
  intros H. apply andb_prop in H as [Hc Hrest].
  apply negb_true_iff in Hc. rewrite Hc, (IH Hrest). reflexivity.
Qed.

Lemma strings_Split_head_no_space (s : string) (a : string) (rest : list string) :
  strings_Split s space = a :: rest -> no_space a = true.
Proof.
  revert a rest. induction s as [|c s IH]; simpl; intros a rest H.
  - injection H as <- _. reflexivity.
  - destruct (Ascii.eqb c space) eqn:Hc.
    + injection H as <- _. reflexivity.
    + destruct (strings_Split s space) as [|piece pieces] eqn:Hs.
      * injection H as <- _. simpl. rewrite Hc. reflexivity.
      * injection H as <- _. simpl. rewrite Hc. simpl. eapply IH. reflexivity.
Qed.

Lemma strings_Split_single (s t : string) :
  strings_Split s space = [t] -> s = t.
Proof.
  revert t. induction s as [|c s IH]; cbn [strings_Split]; intros t H.
  - congruence.
  - destruct (Ascii.eqb c space).
    + injection H as _ H. destruct (strings_Split_nonempty _ _ H).
    + destruct (strings_Split s space) as [|x [|y l]] eqn:Hs.
      * destruct (strings_Split_nonempty _ _ Hs).
      * injection H as <-. f_equal. apply IH. reflexivity.
      * discriminate.
Qed.

(** Splitting at spaces gives exactly two pieces, the first being [p], when
    and only when the string is [p], a space, and a piece without space. *)
Lemma strings_Split_two (p : string) :
  no_space p = true ->
  forall s t,
    strings_Split s space = [p; t]
    <-> strip_prefix (String.append p " ") s = Some t /\ no_space t = true.
Proof.
  induction p as [|a p IH]; intros Hp s t.
  - change (String.append "" " ") with (String space "").
    destruct s as [|c s]; cbn [strings_Split strip_prefix].
    { split; [discriminate | intros [? _]; discriminate]. }
    rewrite (Ascii.eqb_sym space c).
    destruct (Ascii.eqb c space) eqn:Hc.
    + split.
      * intros H. injection H as H. split.
        -- f_equal. apply strings_Split_single. exact H.
        -- eapply strings_Split_head_no_space. exact H.
      * intros [H Ht]. injection H as ->.
        rewrite (strings_Split_no_space _ Ht). reflexivity.
    + split; [|intros [? _]; discriminate].
      destruct (strings_Split s space); discriminate.
  - cbn [no_space] in Hp. apply andb_prop in Hp as [Ha Hp].
    apply negb_true_iff in Ha.
    change (String.append (String a p) " ") with (String a (String.append p " ")).
    destruct s as [|c s]; cbn [strings_Split strip_prefix].
    { split; [discriminate | intros [? _]; discriminate]. }
    split.
    + intros H. destruct (Ascii.eqb c space) eqn:Hc; [discriminate|].
      destruct (strings_Split s space) as [|x l] eqn:Hs; [discriminate|].
      injection H as -> -> ->. rewrite Ascii.eqb_refl.
      apply (IH Hp). exact Hs.
    + intros [H Ht]. destruct (Ascii.eqb a c) eqn:Hc; [|discriminate].
      apply Ascii.eqb_eq in Hc. subst c. rewrite Ha.
      assert (Hs : strings_Split s space = [p; t]) by (apply (IH Hp); auto).
      rewrite Hs. reflexivity.
Qed.

(** A header has the shape [Bearer <token>] exactly when its
    space-separated parts are two, the first being the word Bearer. *)
Lemma bearer_token_parts (h token : string) :
  bearer_token h = Some token <-> strings_Split h space = ["Bearer"; token].
Proof.
  rewrite (strings_Split_two "Bearer" eq_refl h token).
  change (String.append "Bearer" " ") with "Bearer ".
  unfold bearer_token. split.
  - destruct (strip_prefix "Bearer " h) as [t|]; [|discriminate].
    destruct (no_space t) eqn:Ht; [|discriminate].
    intros H. injection H as <-. split; [reflexivity | exact Ht].
  - intros [-> ->]. reflexivity.
Qed.

(** The format check of [JWTAuthMiddleware] accepts exactly the headers of
    the shape [Bearer <token>], and then reads that token. *)
Lemma bearer_token_Split (h : string) :
  let parts := strings_Split h space in
  match bearer_token h with
  | Some token =>
      negb (Nat.eqb (length parts) 2)
      || negb (String.eqb (nth 0 parts "") "Bearer") = false
      /\ nth 1 parts "" = token
  | None =>
      negb (Nat.eqb (length parts) 2)
      || negb (String.eqb (nth 0 parts "") "Bearer") = true
  end.
Proof.
  intros parts. unfold bearer_token.
  destruct (strip_prefix "Bearer " h) as [token|] eqn:Hstrip.
  - destruct (no_space token) eqn:Hns.
    + assert (Hs : parts = ["Bearer"; token]).
      { apply (strings_Split_two "Bearer"); [reflexivity|]. split; assumption. }
      rewrite Hs. simpl. auto.
    + destruct parts as [|a [|b [|c l]]] eqn:Hparts; try reflexivity.
      simpl. destruct (String.eqb a "Bearer") eqn:Ha; [|reflexivity].
      apply String.eqb_eq in Ha. subst a.
      apply (strings_Split_two "Bearer") in Hparts as [H1 H2]; [|reflexivity].
      change (String.append "Bearer" " ") with "Bearer " in H1. congruence.
  - destruct parts as [|a [|b [|c l]]] eqn:Hparts; try reflexivity.
    simpl. destruct (String.eqb a "Bearer") eqn:Ha; [|reflexivity].
    apply String.eqb_eq in Ha. subst a.
    apply (strings_Split_two "Bearer") in Hparts as [H1 H2]; [|reflexivity].
    change (String.append "Bearer" " ") with "Bearer " in H1. congruence.
Qed.

Section Properties.

Context `{P : Platform}.

(** ** The writer *)

Lemma wrote_wrote (w : World) (a b : list WCall) :
  wrote (wrote w a) b = wrote w (a ++ b).
Proof. unfold wrote. simpl. rewrite <- app_assoc. reflexivity. Qed.

Lemma w_Header_Set_spec (k v : string) (w : World) :
  w_Header_Set k v w = Returned tt (wrote w [SetHeader k v]).
Proof. reflexivity. Qed.

Lemma w_WriteHeader_spec (code : Z) (w : World) :
  100 <= code <= 999 ->
  w_WriteHeader code w = Returned tt (wrote w [WriteHeader code]).
Proof.
  intros Hcode. unfold w_WriteHeader, bind, get_calls.
  replace ((code <? 100) || (999 <? code)) with false.
  - rewrite andb_false_r. reflexivity.
  - symmetry. apply orb_false_iff. split; apply Z.ltb_ge; lia.
Qed.

Lemma json_Encode_spec (v : Data) (w : World) :
  exists e, json_Encode v w = Returned e (wrote w [Write (encoded v)]).
Proof.
  unfold json_Encode, w_Write, bind, get_calls, call. cbn beta iota.
  fold (encoded v).
  destruct (committed_status (rw w ++ [Write (encoded v)])) as [st|];
    [destruct (bodyAllowedForStatus st)|]; eexists; reflexivity.
Qed.

(** What either adapter does with a failure envelope. *)
Lemma render_failure (w : World) (err : HandlerError) :
  100 <= ErrorStatus err <= 999 ->
  (w_WriteHeader (ErrorStatus err) ;;
   json_Encode (DError (ErrorMessage err)) ;;
   ret tt) w
  = Returned tt (wrote w [WriteHeader (ErrorStatus err);
                          Write (encoded (DError (ErrorMessage err)))]).
Proof.
  intros Hst. unfold bind at 1. rewrite (w_WriteHeader_spec _ _ Hst).
  unfold bind.
  destruct (json_Encode_spec (DError (ErrorMessage err))
              (wrote w [WriteHeader (ErrorStatus err)])) as [e He].
  rewrite He. unfold ret. rewrite wrote_wrote. reflexivity.
Qed.

(** ** Token verification *)

Lemma TokenDefect_error (tokenString : string) :
  TokenDefect tokenString ->
  exists claims e, VerifyJwtToken tokenString = (claims, Some e).
Proof.
  intros [Hparse | token Hparse Halg | token Hparse Hsig
          | token exp Hparse Hexp Hnz Hpast | e He];
    unfold VerifyJwtToken, jwt_Parse in *.
  - rewrite Hparse. eauto.
  - rewrite Hparse. unfold keyFunc. rewrite Halg. eauto.
  - rewrite Hparse. unfold keyFunc.
    destruct (is_HMAC (Method token)); [|eauto].
    rewrite Hsig. eauto.
  - rewrite Hparse.
    destruct (keyFunc token) as [key|]; [|eauto].
    destruct (jwt_Verify _ _ _ key); [|eauto].
    unfold jwt_Validate, verifyExpiresAt, parseNumericDate. rewrite Hexp.
    apply Z.eqb_neq in Hnz. rewrite Hnz.
    replace (time_Now <? exp) with false by (symmetry; apply Z.ltb_ge; lia).
    eauto.
  - destruct (jwt_ParseUnverified tokenString) as [token|]; [|eauto].
    destruct (keyFunc token) as [key|]; [|eauto].
    destruct (jwt_Verify _ _ _ key); [|eauto].
    destruct (jwt_Validate (Claims token)); [eauto|].
    simpl in He. discriminate.
Qed.

(** A token that [VerifyJwtToken] accepts has an HMAC algorithm, a
    signature that matches the secret of the environment, and no expiry in
    the past. *)
Lemma VerifyJwtToken_accepts (tokenString : string) (claims : MapClaims) :
  VerifyJwtToken tokenString = (claims, None) ->
  exists token,
    jwt_ParseUnverified tokenString = Some token
    /\ claims = Claims token
    /\ is_HMAC (Method token) = true
    /\ jwt_Verify (Method token) (SigningText token) (Signature token)
                  (os_Getenv "JWT_SECRET") = true
    /\ jwt_Validate (Claims token) = None.
Proof.
  unfold VerifyJwtToken, jwt_Parse, keyFunc.
  destruct (jwt_ParseUnverified tokenString) as [token|]; [|discriminate].
  destruct (is_HMAC (Method token)) eqn:Halg; [|discriminate].
  destruct (jwt_Verify _ _ _ _) eqn:Hsig; [|discriminate].
  destruct (jwt_Validate (Claims token)) eqn:Hval; [discriminate|].
  simpl. intros H. injection H as <-. eauto 10.
Qed.

(** ** The authentication middleware *)

Lemma Header_nonempty_eqb (h : string) : h <> "" -> String.eqb h "" = false.
Proof. intros H. apply String.eqb_neq. exact H. Qed.

Lemma bearer_token_nonempty (h token : string) :
  bearer_token h = Some token -> h <> "".
Proof. intros H ->. discriminate. Qed.

Lemma JWTAuthMiddleware_rejects (next : ApiHandlerFunc) (r : Request)
      (w : World) (detail : string) :
  AuthFailure r detail ->
  JWTAuthMiddleware next r w
  = Returned (Failure http_StatusUnauthorized "E401" "Unauthorized" detail) w.
Proof.
  intros [Hmissing | Hpresent Hformat | tokenString Hpresent Hformat Hdefect];
    unfold JWTAuthMiddleware.
  - rewrite Hmissing. reflexivity.
  - rewrite (Header_nonempty_eqb _ Hpresent).
    pose proof (bearer_token_Split (Header_Get r "Authorization")) as Hsplit.
    cbv zeta in Hsplit. rewrite Hformat in Hsplit. rewrite Hsplit. reflexivity.
  - rewrite (Header_nonempty_eqb _ Hpresent).
    pose proof (bearer_token_Split (Header_Get r "Authorization")) as Hsplit.
    cbv zeta in Hsplit. rewrite Hformat in Hsplit.
    destruct Hsplit as [Hcheck Htoken]. rewrite Hcheck, Htoken.
    destruct (TokenDefect_error _ Hdefect) as (claims & e & Hverify).
    rewrite Hverify. reflexivity.
Qed.

(** On an authenticated request the middleware runs [next] on the request
    with the identity attached; whatever [next] returns, it answers with a
    success of its own making. *)
Lemma JWTAuthMiddleware_passes (next : ApiHandlerFunc) (r : Request)
      (w w' : World) (username role : string) (env : Envelope) :
  authenticated r username role ->
  next (with_identity r username role) w = Returned env w' ->
  JWTAuthMiddleware next r w = Returned (Success http_StatusOK DNil) w'.
Proof.
  intros (tokenString & claims & Hbearer & Hverify & Husername & Hrole) Hnext.
  unfold JWTAuthMiddleware.
  rewrite (Header_nonempty_eqb _ (bearer_token_nonempty _ _ Hbearer)).
  pose proof (bearer_token_Split (Header_Get r "Authorization")) as Hsplit.
  cbv zeta in Hsplit. rewrite Hbearer in Hsplit.
  destruct Hsplit as [Hcheck Htoken]. rewrite Hcheck, Htoken, Hverify.
  rewrite Husername, Hrole. unfold bind, assert_string, ret.
  fold (with_identity r username role). rewrite Hnext. reflexivity.
Qed.

Lemma JWTAuthMiddleware_panics (next : ApiHandlerFunc) (r : Request)
      (w w' : World) (username role msg : string) :
  authenticated r username role ->
  next (with_identity r username role) w = Panicked msg w' ->
  JWTAuthMiddleware next r w = Panicked msg w'.
Proof.
  intros (tokenString & claims & Hbearer & Hverify & Husername & Hrole) Hnext.
  unfold JWTAuthMiddleware.
  rewrite (Header_nonempty_eqb _ (bearer_token_nonempty _ _ Hbearer)).
  pose proof (bearer_token_Split (Header_Get r "Authorization")) as Hsplit.
  cbv zeta in Hsplit. rewrite Hbearer in Hsplit.
  destruct Hsplit as [Hcheck Htoken]. rewrite Hcheck, Htoken, Hverify.
  rewrite Husername, Hrole. unfold bind, assert_string, ret.
  fold (with_identity r username role). rewrite Hnext. reflexivity.
Qed.

(** ** The authorization middleware *)

Lemma OnlyAdminMiddleware_on_role (next : ApiHandlerFunc) (r : Request)
      (w : World) (role : string) :
  context_Value (Ctx r) ContextRoleKey = VString role ->
  OnlyAdminMiddleware next r w
  = if String.eqb role "admin" then next r w
    else Returned (Failure http_StatusForbidden "E403" "Forbidden"
                           "You are not an admin") w.
Proof.
  intros Hrole. unfold OnlyAdminMiddleware. rewrite Hrole.
  unfold bind, assert_string, ret.
  destruct (String.eqb role "admin"); reflexivity.
Qed.

(** Without an identity in the context the type assertion panics. *)
Lemma OnlyAdminMiddleware_without_identity (next : ApiHandlerFunc)
      (r : Request) (w : World) :
  context_Value (Ctx r) ContextRoleKey = VNil ->
  exists msg, OnlyAdminMiddleware next r w = Panicked msg w.
Proof.
  intros Hrole. unfold OnlyAdminMiddleware. rewrite Hrole.
  eexists. reflexivity.
Qed.

(** ** The adapters *)

Lemma committed_status_app (a b : list WCall) :
  committed_status (a ++ b)
  = match committed_status a with
    | Some st => Some st
    | None => committed_status b
    end.
Proof.
  induction a as [|c a IH]; [reflexivity|].
  destruct c as [k v|code|bytes]; simpl; auto.
  destruct (is_informational code); auto.
Qed.

Lemma count_WriteHeader_app (a b : list WCall) :
  count_WriteHeader (a ++ b) = (count_WriteHeader a + count_WriteHeader b)%nat.
Proof.
  unfold count_WriteHeader. rewrite filter_app, length_app. reflexivity.
Qed.

(** A handler that leaves the writer alone, as all handlers of the
    repository do, and returns a success: [ApiHandlerAdapter] sets the
    content type, sends the status and encodes the data, nil or not. *)
Lemma ApiHandlerAdapter_success (handler : ApiHandlerFunc) (r : Request)
      (w : World) (st : Z) (d : Data) (db1 : DB) :
  handler r (wrote w [content_type])
  = Returned (Success st d) {| rw := rw w ++ [content_type]; db := db1 |} ->
  100 <= st <= 999 ->
  ApiHandlerAdapter handler r w
  = Returned tt {| rw := rw w ++ [content_type; WriteHeader st;
                                  Write (encoded d)];
                   db := db1 |}.
Proof.
  intros Hhandler Hst. unfold ApiHandlerAdapter.
  unfold bind at 1. rewrite w_Header_Set_spec.
  unfold bind at 1. fold content_type. rewrite Hhandler.
  cbn [Success SuccessStatus SuccessData].
  unfold bind at 1. rewrite (w_WriteHeader_spec _ _ Hst).
  unfold bind.
  match goal with
  | |- context [json_Encode d ?w0] =>
      destruct (json_Encode_spec d w0) as [e He]; rewrite He
  end.
  unfold ret, wrote. cbn [rw db]. rewrite <- !app_assoc. reflexivity.
Qed.

Lemma ApiHandlerAdapter_failure (handler : ApiHandlerFunc) (r : Request)
      (w : World) (st : Z) (code message detail : string) (db1 : DB) :
  handler r (wrote w [content_type])
  = Returned (Failure st code message detail)
             {| rw := rw w ++ [content_type]; db := db1 |} ->
  100 <= st <= 999 ->
  ApiHandlerAdapter handler r w
  = Returned tt {| rw := rw w ++ [content_type; WriteHeader st;
                                  Write (error_body code message detail)];
                   db := db1 |}.
Proof.
  intros Hhandler Hst. unfold ApiHandlerAdapter.
  unfold bind at 1. rewrite w_Header_Set_spec.
  unfold bind at 1. fold content_type. rewrite Hhandler.
  cbn [Failure].
  rewrite render_failure by exact Hst.
  unfold wrote, error_body. cbn [rw db ErrorStatus ErrorMessage].
  rewrite <- !app_assoc. reflexivity.
Qed.

(** The middleware adapter around the authentication middleware, on a
    request that fails authentication: one rendered 401 and nothing else. *)
Lemma MiddlewareAdapter_JWT_rejects (inner : HttpHandler) (r : Request)
      (w : World) (detail : string) :
  AuthFailure r detail ->
  MiddlewareAdapter JWTAuthMiddleware inner r w
  = Returned tt (wrote w [content_type; WriteHeader http_StatusUnauthorized;
                          Write (error_body "E401" "Unauthorized" detail)]).
Proof.
  intros Hfail. unfold MiddlewareAdapter.
  unfold bind at 1. rewrite w_Header_Set_spec.
  unfold bind at 1.
  rewrite (JWTAuthMiddleware_rejects _ _ _ _ Hfail).
  cbn [Failure].
  rewrite render_failure by (cbn; unfold http_StatusUnauthorized; lia).
  rewrite wrote_wrote. reflexivity.
Qed.

(** The same adapter on an authenticated request: after the inner handler
    has run, the adapter sends the status 200 that the middleware made
    up. *)
Lemma MiddlewareAdapter_JWT_passes (inner : HttpHandler) (r : Request)
      (w w' : World) (username role : string) :
  authenticated r username role ->
  inner (with_identity r username role) (wrote w [content_type])
  = Returned tt w' ->
  MiddlewareAdapter JWTAuthMiddleware inner r w
  = Returned tt (wrote w' [WriteHeader http_StatusOK]).
Proof.
  intros Hauth Hinner. unfold MiddlewareAdapter.
  unfold bind at 1. rewrite w_Header_Set_spec.
  unfold bind at 1. fold content_type.
  erewrite JWTAuthMiddleware_passes; [| exact Hauth |].
  2:{ unfold bind. rewrite Hinner. reflexivity. }
  cbn [Success SuccessStatus SuccessData is_nil negb].
  unfold bind. rewrite w_WriteHeader_spec by (unfold http_StatusOK; lia).
  reflexivity.
Qed.

(** ** Failing authentication *)

Lemma invalid_authorization_fails (r : Request) :
  valid_authorization r = false -> exists detail, AuthFailure r detail.
Proof.
  unfold valid_authorization. intros Hinvalid.
  destruct (String.eqb (Header_Get r "Authorization") "") eqn:Hempty.
  - apply String.eqb_eq in Hempty. eexists. apply MissingToken. exact Hempty.
  - apply String.eqb_neq in Hempty.
    destruct (bearer_token (Header_Get r "Authorization"))
      as [tokenString|] eqn:Hbearer.
    + apply bool_decide_eq_false in Hinvalid.
      destruct (VerifyJwtToken tokenString).2 as [e|] eqn:Herr; [|congruence].
      eexists. eapply InvalidToken; [exact Hempty | exact Hbearer |].
      eapply Rejected. exact Herr.
    + eexists. apply InvalidTokenFormat; assumption.
Qed.

Lemma route_starts_with_JWT (rt : UserRoute) :
  exists inner, UserRouter rt = MiddlewareAdapter JWTAuthMiddleware inner.
Proof. destruct rt; eexists; reflexivity. Qed.

(** ** The claims about the middlewares *)

(** C1 (what the code does instead).  On an authenticated request
    [JWTAuthMiddleware] invokes [next] and then drops the envelope it got:
    whenever [next] returns anything other than a bare 200 success, the
    envelope the middleware returns is a different one, namely the success
    with status 200 and nil data that it builds itself. *)
Theorem JWTAuthMiddleware_replaces_envelope (next : ApiHandlerFunc)
        (r : Request) (w w' : World) (username role : string)
        (env : Envelope) :
  authenticated r username role ->
  next (with_identity r username role) w = Returned env w' ->
  env <> Success http_StatusOK DNil ->
  JWTAuthMiddleware next r w = Returned (Success http_StatusOK DNil) w'
  /\ JWTAuthMiddleware next r w <> Returned env w'.
Proof.
  intros Hauth Hnext Hother.
  assert (Hown :
    JWTAuthMiddleware next r w = Returned (Success http_StatusOK DNil) w').
  { eapply JWTAuthMiddleware_passes; eassumption. }
  split; [exact Hown|]. rewrite Hown. congruence.
Qed.

(** C2.  The authentication middleware is the state machine of the
    specification: a missing Authorization header, a header that is not of
    the shape [Bearer <token>], and a token that fails verification (wrong
    signature, an algorithm that is not HMAC, expiry, or any other error of
    the verifier) each end the request with status 401, code E401 and the
    detail of their own, whatever [next] is and without any effect. *)
Theorem JWTAuthMiddleware_state_machine (r : Request) (detail : string) :
  AuthFailure r detail ->
  forall (next : ApiHandlerFunc) (w : World),
    JWTAuthMiddleware next r w
    = Returned (None,
                Some (mkError 401 (mkErrorResponse "E401" "Unauthorized"
                                                   detail)))
               w.
Proof.
  intros Hfail next w. exact (JWTAuthMiddleware_rejects next r w detail Hfail).
Qed.

(** C4.  A request without a valid Authorization header gets, on every
    route behind [JWTAuthMiddleware] and so on every route of [UserRouter],
    one rendered response with status 401 and code E401; the handler
    behind the middleware has no part in the outcome and the table is
    untouched. *)
Theorem protected_route_rejects_unauthenticated (r : Request) (w : World) :
  valid_authorization r = false ->
  exists detail,
    let answered :=
      wrote w [content_type; WriteHeader 401;
               Write (error_body "E401" "Unauthorized" detail)] in
    (forall inner : HttpHandler,
        MiddlewareAdapter JWTAuthMiddleware inner r w = Returned tt answered)
    /\ (forall rt : UserRoute, UserRouter rt r w = Returned tt answered)
    /\ db answered = db w
    /\ (committed_status (rw w) = None ->
        committed_status (rw answered) = Some 401).
Proof.
  intros Hinvalid.
  destruct (invalid_authorization_fails r Hinvalid) as [detail Hfail].
  exists detail. cbv zeta. repeat split.
  - intros inner. apply MiddlewareAdapter_JWT_rejects. exact Hfail.
  - intros rt. destruct (route_starts_with_JWT rt) as [inner ->].
    apply MiddlewareAdapter_JWT_rejects. exact Hfail.
  - intros Hfresh. unfold wrote. cbn [rw].
    rewrite committed_status_app, Hfresh. reflexivity.
Qed.

(** C5 (amended).  With the identity in the context, the authorization
    middleware answers any role other than admin with status 403, code
    E403, message Forbidden and detail You are not an admin, without
    running [next]; for the role admin it is [next]. *)
Theorem OnlyAdminMiddleware_gate (next : ApiHandlerFunc) (r : Request)
        (w : World) (role : string) :
  context_Value (Ctx r) ContextRoleKey = VString role ->
  (role <> "admin" ->
   OnlyAdminMiddleware next r w
   = Returned (None,
               Some (mkError 403 (mkErrorResponse "E403" "Forbidden"
                                                  "You are not an admin")))
              w)
  /\ (role = "admin" -> OnlyAdminMiddleware next r w = next r w).
Proof.
  intros Hrole. rewrite (OnlyAdminMiddleware_on_role _ _ _ _ Hrole). split.
  - intros Hne. apply String.eqb_neq in Hne. rewrite Hne. reflexivity.
  - intros ->. reflexivity.
Qed.

(** For an authenticated request whose handler returns a success, the
    pipeline of [MiddlewareAdapter] around [JWTAuthMiddleware] and
    [ApiHandlerAdapter] sends a status twice: the handler's own, with the
    body, and then a 200 from the outer adapter. *)
Lemma pipeline_writes_status_twice (handler : ApiHandlerFunc) (r : Request)
        (w : World) (username role : string) (st : Z) (d : Data) (db1 : DB) :
  authenticated r username role ->
  handler (with_identity r username role)
          (wrote (wrote w [content_type]) [content_type])
  = Returned (Success st d)
             {| rw := rw w ++ [content_type; content_type]; db := db1 |} ->
  100 <= st <= 999 ->
  let final := {| rw := rw w ++ [content_type; content_type; WriteHeader st;
                                 Write (encoded d); WriteHeader 200];
                  db := db1 |} in
  MiddlewareAdapter JWTAuthMiddleware (ApiHandlerAdapter handler) r w
  = Returned tt final
  /\ count_WriteHeader (rw final) = (count_WriteHeader (rw w) + 2)%nat.
Proof.
  intros Hauth Hhandler Hst. cbv zeta. split.
  - assert (Hinner :
      handler (with_identity r username role)
              (wrote (wrote w [content_type]) [content_type])
      = Returned (Success st d)
                 {| rw := rw (wrote w [content_type]) ++ [content_type];
                    db := db1 |}).
    { rewrite Hhandler. unfold wrote. cbn [rw].
      rewrite <- app_assoc. reflexivity. }
    erewrite MiddlewareAdapter_JWT_passes; [| exact Hauth |].
    2:{ apply ApiHandlerAdapter_success; [exact Hinner | exact Hst]. }
    unfold wrote. cbn [rw db]. rewrite <- !app_assoc. reflexivity.
  - cbn [rw]. rewrite count_WriteHeader_app. reflexivity.
Qed.

(** C8 (what the code does instead).  For a success whose data is nil,
    [ApiHandlerAdapter] still runs the encoder: after the content type and
    the status it writes the four bytes of null and a newline, and with
    status 204 committed that write is refused by the writer. *)
Theorem ApiHandlerAdapter_encodes_nil (handler : ApiHandlerFunc) (r : Request)
        (w : World) (st : Z) (db1 : DB) :
  handler r (wrote w [content_type])
  = Returned (Success st DNil) {| rw := rw w ++ [content_type]; db := db1 |} ->
  100 <= st <= 999 ->
  ApiHandlerAdapter handler r w
  = Returned tt {| rw := rw w ++ [content_type; WriteHeader st;
                                  Write (String.append "null" newline)];
                   db := db1 |}
  /\ (committed_status (rw w) = None -> st = 204 ->
      exists w2,
        json_Encode DNil (wrote w [content_type; WriteHeader st])
        = Returned (Some ErrBodyNotAllowed) w2).
Proof.
  intros Hhandler Hst. split.
  - exact (ApiHandlerAdapter_success handler r w st DNil db1 Hhandler Hst).
  - intros Hfresh ->. eexists.
    unfold json_Encode, w_Write, bind, get_calls, call, wrote.
    cbn [rw db]. rewrite !committed_status_app, Hfresh. cbn. reflexivity.
Qed.

(** ** The claims about the handlers *)

Lemma set_users_same (d : DB) : set_users d (users d) = d.
Proof. destruct d. reflexivity. Qed.

Lemma put_db_same (w : World) : put_db (db w) w = Returned tt w.
Proof. destruct w. reflexivity. Qed.

Lemma select_by_id_found (id : Z) (w : World) (row : Row) :
  reachable (db w) = true ->
  users (db w) !! id = Some row ->
  select_by_id id w = Returned (inr (id, row)) w.
Proof.
  intros Hup Hrow. unfold select_by_id, bind, get_db.
  rewrite Hup, Hrow. reflexivity.
Qed.

(** The row a SELECT by primary key returns carries the id that was asked
    for. *)
Lemma select_by_id_same_id (id : Z) (w w' : World) (found : Z * Row) :
  select_by_id id w = Returned (inr found) w' -> row_id found = id.
Proof.
  unfold select_by_id, bind, get_db, ret.
  destruct (reachable (db w)); cbn; [|discriminate].
  destruct (users (db w) !! id); cbn; [|discriminate].
  intros H. injection H as <- _. reflexivity.
Qed.

(** A value stored under a key of type [contextKey] is not found under
    the key of type [string] with the same letters. *)
Lemma identity_hidden_from_string_key (r : Request) (username role : string) :
  context_Value (Ctx (with_identity r username role)) (KString "role")
  = context_Value (Ctx r) (KString "role").
Proof. reflexivity. Qed.

Lemma from_server_no_string_key (c : Context) (key : string) :
  from_server c = true -> context_Value c (KString key) = VNil.
Proof.
  induction c as [|[k v] c IH]; [reflexivity|].
  cbn [from_server forallb fst]. intros H.
  apply andb_prop in H as [Hk Hc]. cbn [context_Value].
  destruct (decide (k = KString key)) as [->|_]; [discriminate|].
  apply IH. exact Hc.
Qed.

(** C9 (what the code does instead).  Deleting by a well-formed id for
    which there is no record returns the success with status 204, not a
    404: the DELETE runs without error and leaves the table as it was. *)
Theorem deleteUser_absent_record (r : Request) (w : World) (id : Z) :
  strconv_Atoi (chi_URLParam r "id") = Some id ->
  reachable (db w) = true ->
  users (db w) !! id = None ->
  deleteUser r w = Returned (Success 204 DNil) w.
Proof.
  intros Hid Hup Habsent. unfold deleteUser. rewrite Hid.
  unfold exec_delete, bind, get_db. rewrite Hup. cbn [negb].
  rewrite (delete_id _ _ Habsent), set_users_same, put_db_same.
  reflexivity.
Qed.

(** On a request that went through the authentication middleware,
    [updateUser] sees no role under its string key and refuses. *)
Lemma updateUser_forbidden (r : Request) (w : World)
      (username role : string) (id : Z) (req : userRequest) (row : Row) :
  from_server (Ctx r) = true ->
  strconv_Atoi (chi_URLParam r "id") = Some id ->
  json_Decode_userRequest (Body r) = Some req ->
  reqName req <> "" ->
  reqEmail req <> "" ->
  reachable (db w) = true ->
  users (db w) !! id = Some row ->
  updateUser (with_identity r username role) w = Returned forbidden_update w.
Proof.
  intros Hserver Hid Hbody Hname Hemail Hup Hrow.
  unfold updateUser.
  change (chi_URLParam (with_identity r username role) "id")
    with (chi_URLParam r "id").
  change (Body (with_identity r username role)) with (Body r).
  rewrite Hid, Hbody.
  apply String.eqb_neq in Hname, Hemail. rewrite Hname, Hemail.
  cbn [orb]. unfold bind at 1.
  rewrite (select_by_id_found id w row Hup Hrow).
  rewrite identity_hidden_from_string_key.
  rewrite (from_server_no_string_key _ _ Hserver).
  unfold row_id. cbn [fst iface_eq_string negb].
  rewrite orb_true_r. reflexivity.
Qed.

(** C10.  The role that [JWTAuthMiddleware] stores under its typed key is
    invisible to the lookup of [updateUser] under the string key, and the
    fetched record has the id of the path; so for a request that comes
    from the server through the authentication middleware, with a
    well-formed id, a valid body and an existing target, [updateUser]
    returns the 403 failure and leaves the world as it was, whoever the
    caller is. *)
Theorem updateUser_always_forbidden (r : Request) (w : World)
        (username role : string) (id : Z) (req : userRequest) (row : Row) :
  from_server (Ctx r) = true ->
  strconv_Atoi (chi_URLParam r "id") = Some id ->
  json_Decode_userRequest (Body r) = Some req ->
  reqName req <> "" ->
  reqEmail req <> "" ->
  reachable (db w) = true ->
  users (db w) !! id = Some row ->
  context_Value (Ctx (with_identity r username role)) ContextRoleKey
  = VString role
  /\ context_Value (Ctx (with_identity r username role)) (KString "role")
     = VNil
  /\ (forall found w', select_by_id id w = Returned (inr found) w' ->
                       row_id found = id)
  /\ updateUser (with_identity r username role) w
     = Returned (None,
                 Some (mkError 403
                         (mkErrorResponse "E403" "Forbidden"
          "You are no authorized to update another user than yourself")))
                w.
Proof.
  intros Hserver Hid Hbody Hname Hemail Hup Hrow.
  assert (Hhidden :
    context_Value (Ctx (with_identity r username role)) (KString "role")
    = VNil).
  { rewrite identity_hidden_from_string_key.
    apply from_server_no_string_key. exact Hserver. }
  split; [reflexivity|]. split; [exact Hhidden|]. split.
  - intros found w'. apply select_by_id_same_id.
  - eapply updateUser_forbidden; eassumption.
Qed.

(** C3 (what the code does instead).  Every authenticated caller, the
    owner of the record and an admin included, who puts a valid update to
    an existing user through the route is answered with the 403 failure,
    and the table is left as it was: the update never proceeds. *)
Theorem PUT_user_refuses_every_caller (r : Request) (w : World)
        (username role : string) (id : Z) (req : userRequest) (row : Row) :
  authenticated r username role ->
  from_server (Ctx r) = true ->
  strconv_Atoi (chi_URLParam r "id") = Some id ->
  json_Decode_userRequest (Body r) = Some req ->
  reqName req <> "" ->
  reqEmail req <> "" ->
  reachable (db w) = true ->
  users (db w) !! id = Some row ->
  UserRouter PUT_user r w
  = Returned tt
      (wrote w [content_type; content_type; WriteHeader 403;
                Write (error_body "E403" "Forbidden"
              "You are no authorized to update another user than yourself");
                WriteHeader 200]).
Proof.
  intros Hauth Hserver Hid Hbody Hname Hemail Hup Hrow.
  change (UserRouter PUT_user)
    with (MiddlewareAdapter JWTAuthMiddleware (ApiHandlerAdapter updateUser)).
  erewrite MiddlewareAdapter_JWT_passes; [| exact Hauth |].
  2:{ eapply (ApiHandlerAdapter_failure updateUser _ (wrote w [content_type])
                403 "E403" "Forbidden" _ (db w)); [|lia].
      eapply updateUser_forbidden; eassumption. }
  unfold wrote. cbn [rw db]. rewrite <- !app_assoc. reflexivity.
Qed.

(** C6.  For a login with an existing email, a well-formed body and a
    reachable database, the outcome is decided by
    [bcrypt_CompareHashAndPassword] on the stored hash and the supplied
    password, and by nothing else about the two: a refusal is the 401
    failure, an acceptance goes on to issue the token.  The query itself
    selects by email alone. *)
Theorem Login_verifies_hash (r : Request) (w : World) (req : loginRequest)
        (found : Z * Row) :
  json_Decode_loginRequest (Body r) = Some req ->
  loginEmail req <> "" ->
  loginPassword req <> "" ->
  reachable (db w) = true ->
  find_by_email (users (db w)) (loginEmail req) = Some found ->
  select_by_email (loginEmail req) w = Returned (inr found) w
  /\ Login r w
     = Returned
         (if bcrypt_CompareHashAndPassword (row_password found.2)
                                           (loginPassword req)
          then match CreateJwtToken (row_name found.2) (row_role found.2) with
               | Some token =>
                   Success 200 (DAuth (mkAuthResponse "Login successful" token))
               | None => E500
               end
          else Failure 401 "E401" "Unauthorized" "Invalid email or password")
         w.
Proof.
  intros Hbody Hemail Hpassword Hup Hfound.
  assert (Hselect :
    select_by_email (loginEmail req) w = Returned (inr found) w).
  { unfold select_by_email, bind, get_db. rewrite Hup, Hfound. reflexivity. }
  split; [exact Hselect|].
  unfold Login. rewrite Hbody.
  apply String.eqb_neq in Hemail, Hpassword. rewrite Hemail, Hpassword.
  cbn [orb]. unfold bind. rewrite Hselect.
  destruct (bcrypt_CompareHashAndPassword _ _); cbn [negb]; [|reflexivity].
  destruct (CreateJwtToken _ _); reflexivity.
Qed.

(** ** The handlers and the writer *)

Lemma returns_quietly_ret {A} (Q : A -> Prop) (a : A) :
  Q a -> returns_quietly Q (ret a).
Proof. intros Ha w. exists a, w. auto. Qed.

Lemma returns_quietly_bind {A B} (Q : B -> Prop) (m : M A) (k : A -> M B) :
  returns_quietly (fun _ => True) m ->
  (forall a, returns_quietly Q (k a)) ->
  returns_quietly Q (bind m k).
Proof.
  intros Hm Hk w. destruct (Hm w) as (a & w1 & Hrun & Hrw & _).
  destruct (Hk a w1) as (b & w2 & Hrun2 & Hrw2 & Hb).
  exists b, w2. unfold bind. rewrite Hrun, Hrun2.
  split; [reflexivity|]. split; [congruence | exact Hb].
Qed.

Lemma returns_quietly_get_db : returns_quietly (fun _ => True) get_db.
Proof. intros w. exists (db w), w. auto. Qed.

Lemma returns_quietly_put_db (d : DB) :
  returns_quietly (fun _ => True) (put_db d).
Proof. intros w. eexists tt, _. split; [reflexivity|]. auto. Qed.

Ltac quietly :=
  repeat first
    [ apply returns_quietly_get_db
    | apply returns_quietly_put_db
    | apply returns_quietly_ret;
      first [ exact I | cbv; split; discriminate ]
    | apply returns_quietly_bind; [| intros ? ]
    | case_match ].

Lemma select_by_id_quiet (id : Z) :
  returns_quietly (fun _ => True) (select_by_id id).
Proof. unfold select_by_id. quietly. Qed.

Lemma select_all_quiet : returns_quietly (fun _ => True) select_all.
Proof. unfold select_all. quietly. Qed.

Lemma exec_delete_quiet (id : Z) :
  returns_quietly (fun _ => True) (exec_delete id).
Proof. unfold exec_delete. quietly. Qed.

Lemma update_returning_quiet (name email : string) (id : Z) :
  returns_quietly (fun _ => True) (update_returning name email id).
Proof. unfold update_returning. quietly. Qed.

Lemma insert_returning_quiet (name email : string) :
  returns_quietly (fun _ => True) (insert_returning name email).
Proof. unfold insert_returning. quietly. Qed.

(** No handler of [UserRouter] touches the response writer, and none
    panics: each returns an envelope that the adapter can render. *)
Lemma route_handler_quiet (rt : UserRoute) (r : Request) :
  returns_quietly renderable (route_handler rt r).
Proof.
  destruct rt; cbn [route_handler];
    unfold insertUser, getAllUsers, getUser, updateUser, deleteUser,
      getMockUser;
    repeat first
      [ apply select_by_id_quiet | apply select_all_quiet
      | apply exec_delete_quiet | apply update_returning_quiet
      | apply insert_returning_quiet
      | apply returns_quietly_ret; cbv; split; discriminate
      | apply returns_quietly_bind; [| intros ? ]
      | case_match ].
Qed.

(** [deleteUser] answers 400, 500 or 204, and never 404. *)
Lemma deleteUser_never_not_found (r : Request) (w : World) :
  exists env w',
    deleteUser r w = Returned env w'
    /\ (env = bad_id \/ env = E500 \/ env = Success 204 DNil).
Proof.
  unfold deleteUser. destruct (strconv_Atoi (chi_URLParam r "id")) as [id|].
  - unfold exec_delete, bind, get_db.
    destruct (reachable (db w)); cbn [negb]; eauto 10.
  - eauto 10.
Qed.

(** For every route handler, [ApiHandlerAdapter] sets the content type
    before anything else, and then sends one status and one body. *)
Lemma ApiHandlerAdapter_route (rt : UserRoute) (r : Request) (w : World) :
  exists w' st bytes,
    ApiHandlerAdapter (route_handler rt) r w = Returned tt w'
    /\ rw w' = (rw w ++ [content_type; WriteHeader st; Write bytes])%list.
Proof.
  destruct (route_handler_quiet rt r (wrote w [content_type]))
    as (env & w1 & Hhandler & Hrw & Henv).
  assert (Hw1 : w1 = {| rw := rw w ++ [content_type]; db := db w1 |}).
  { destruct w1 as [calls d]. cbn in Hrw. subst calls. reflexivity. }
  rewrite Hw1 in Hhandler.
  destruct env as [[[st d]|] [[st' [c m dt]]|]]; cbn in Henv; try contradiction.
  - rewrite (ApiHandlerAdapter_success _ _ _ _ _ _ Hhandler Henv).
    do 3 eexists. split; reflexivity.
  - rewrite (ApiHandlerAdapter_failure _ _ _ _ _ _ _ _ Hhandler Henv).
    do 3 eexists. split; reflexivity.
Qed.

(** The middleware adapter around the authorization middleware: for an
    admin it adds nothing to what the inner handler did, since the envelope
    that comes back is the pair of nil pointers; anyone else gets one
    rendered 403. *)
Lemma MiddlewareAdapter_OnlyAdmin_admin (inner : HttpHandler) (r : Request)
      (w w' : World) :
  context_Value (Ctx r) ContextRoleKey = VString "admin" ->
  inner r (wrote w [content_type]) = Returned tt w' ->
  MiddlewareAdapter OnlyAdminMiddleware inner r w = Returned tt w'.
Proof.
  intros Hrole Hinner. unfold MiddlewareAdapter.
  unfold bind at 1. rewrite w_Header_Set_spec.
  unfold bind at 1. fold content_type.
  rewrite (OnlyAdminMiddleware_on_role _ _ _ _ Hrole). cbn [String.eqb].
  change (String.eqb "admin" "admin") with true. cbv iota.
  unfold bind. rewrite Hinner. reflexivity.
Qed.

Lemma MiddlewareAdapter_OnlyAdmin_other (inner : HttpHandler) (r : Request)
      (w : World) (role : string) :
  context_Value (Ctx r) ContextRoleKey = VString role ->
  role <> "admin" ->
  MiddlewareAdapter OnlyAdminMiddleware inner r w
  = Returned tt (wrote w [content_type; WriteHeader http_StatusForbidden;
                          Write (error_body "E403" "Forbidden"
                                            "You are not an admin")]).
Proof.
  intros Hrole Hother. unfold MiddlewareAdapter.
  unfold bind at 1. rewrite w_Header_Set_spec.
  unfold bind at 1. fold content_type.
  rewrite (OnlyAdminMiddleware_on_role _ _ _ _ Hrole).
  apply String.eqb_neq in Hother. rewrite Hother.
  cbn [Failure].
  rewrite render_failure by (cbn; unfold http_StatusForbidden; lia).
  rewrite wrote_wrote. reflexivity.
Qed.

(** What lies behind the authentication middleware on each route sends
    exactly one status, whoever the caller is. *)
Lemma behind_JWT_one_status (rt : UserRoute) (r : Request) (w : World)
      (username role : string) :
  exists inner w' calls,
    UserRouter rt = MiddlewareAdapter JWTAuthMiddleware inner
    /\ inner (with_identity r username role) w = Returned tt w'
    /\ rw w' = (rw w ++ calls)%list
    /\ count_WriteHeader calls = 1%nat.
Proof.
  assert (Hone : forall a b st bytes,
    a = (b ++ [content_type; WriteHeader st; Write bytes])%list ->
    exists calls, a = (b ++ calls)%list /\ count_WriteHeader calls = 1%nat).
  { intros a b st bytes ->. eexists. split; reflexivity. }
  assert (Hadmin : forall h : ApiHandlerFunc,
    (forall r0 w0, exists w' st bytes,
        ApiHandlerAdapter h r0 w0 = Returned tt w'
        /\ rw w' = (rw w0 ++ [content_type; WriteHeader st; Write bytes])%list)
    ->
    exists w' calls,
      MiddlewareAdapter OnlyAdminMiddleware (ApiHandlerAdapter h)
                        (with_identity r username role) w = Returned tt w'
      /\ rw w' = (rw w ++ calls)%list /\ count_WriteHeader calls = 1%nat).
  { intros h Hh. destruct (decide (role = "admin")) as [->|Hother].
    - destruct (Hh (with_identity r username "admin")
                   (wrote w [content_type])) as (w' & st & bytes & Hrun & Hrw).
      exists w'. eexists. split.
      + apply MiddlewareAdapter_OnlyAdmin_admin; [reflexivity | exact Hrun].
      + rewrite Hrw. unfold wrote. cbn [rw]. rewrite <- app_assoc.
        split; reflexivity.
    - eexists. eexists. split.
      + eapply MiddlewareAdapter_OnlyAdmin_other; [reflexivity | exact Hother].
      + split; reflexivity. }
  destruct rt.
  - destruct (Hadmin insertUser (ApiHandlerAdapter_route POST_users))
      as (w' & calls & H1 & H2 & H3). eauto 10.
  - destruct (ApiHandlerAdapter_route GET_users
                (with_identity r username role) w)
      as (w' & st & bytes & H1 & H2).
    destruct (Hone _ _ _ _ H2) as (calls & H3 & H4). eauto 10.
  - destruct (ApiHandlerAdapter_route GET_user
                (with_identity r username role) w)
      as (w' & st & bytes & H1 & H2).
    destruct (Hone _ _ _ _ H2) as (calls & H3 & H4). eauto 10.
  - destruct (ApiHandlerAdapter_route PUT_user
                (with_identity r username role) w)
      as (w' & st & bytes & H1 & H2).
    destruct (Hone _ _ _ _ H2) as (calls & H3 & H4). eauto 10.
  - destruct (Hadmin deleteUser (ApiHandlerAdapter_route DELETE_user))
      as (w' & calls & H1 & H2 & H3). eauto 10.
  - destruct (Hadmin getMockUser (ApiHandlerAdapter_route GET_mock))
      as (w' & calls & H1 & H2 & H3). eauto 10.
Qed.

(** C7 (what the code does instead).  On every route of [UserRouter], an
    authenticated request has a status sent to the writer twice: once by
    what lies behind the authentication middleware, and then, after that
    response has been rendered, the 200 of the outer adapter. *)
Theorem authenticated_request_gets_two_statuses (rt : UserRoute)
        (r : Request) (w : World) (username role : string) :
  authenticated r username role ->
  exists w' calls,
    UserRouter rt r w = Returned tt w'
    /\ rw w' = (rw w ++ content_type :: calls ++ [WriteHeader 200])%list
    /\ count_WriteHeader calls = 1%nat
    /\ count_WriteHeader (content_type :: calls ++ [WriteHeader 200]) = 2%nat.
Proof.
  intros Hauth.
  destruct (behind_JWT_one_status rt r (wrote w [content_type]) username role)
    as (inner & w1 & calls & -> & Hinner & Hrw & Hcount).
  exists (wrote w1 [WriteHeader http_StatusOK]), calls.
  split; [|split; [|split]].
  - eapply MiddlewareAdapter_JWT_passes; eassumption.
  - unfold wrote in *. cbn [rw] in *. rewrite Hrw.
    rewrite <- !app_assoc. reflexivity.
  - exact Hcount.
  - change (content_type :: calls ++ [WriteHeader 200])
      with ([content_type] ++ calls ++ [WriteHeader 200])%list.
    rewrite !count_WriteHeader_app, Hcount. reflexivity.
Qed.

End Properties.

(** * Further properties of the package *)

Section Tables.

(** ** The table *)

Lemma in_map_to_list (us : gmap Z Row) (kr : Z * Row) :
  In kr (map_to_list us) <-> us !! kr.1 = Some kr.2.
Proof.
  rewrite <- list_elem_of_In. destruct kr as [k row].
  apply elem_of_map_to_list.
Qed.

Lemma email_taken_false (us : gmap Z Row) (email : string) :
  email_taken us None email = false ->
  forall k row, us !! k = Some row -> row_email row <> email.
Proof.
  unfold email_taken. intros Hfree k row Hrow Heq.
  apply not_true_iff_false in Hfree. apply Hfree.
  apply existsb_exists. exists (k, row). split.
  - apply in_map_to_list. exact Hrow.
  - cbn. apply String.eqb_eq in Heq. rewrite Heq. reflexivity.
Qed.

Lemma find_by_email_free (us : gmap Z Row) (email : string) :
  email_taken us None email = false -> find_by_email us email = None.
Proof.
  intros Hfree. unfold find_by_email.
  destruct (List.find _ (map_to_list us)) as [[k row]|] eqn:Hfind;
    [|reflexivity].
  apply find_some in Hfind as [Hin Hmatch].
  apply in_map_to_list in Hin. apply String.eqb_eq in Hmatch.
  destruct (email_taken_false us email Hfree k row Hin Hmatch).
Qed.

(** After a row with an email nobody had was stored under a fresh id, the
    SELECT by that email finds this row. *)
Lemma find_by_email_inserted (us : gmap Z Row) (id : Z) (row : Row) :
  email_taken us None (row_email row) = false ->
  find_by_email (<[id := row]> us) (row_email row) = Some (id, row).
Proof.
  intros Hfree. unfold find_by_email.
  destruct (List.find _ (map_to_list (<[id := row]> us)))
    as [[k found]|] eqn:Hfind.
  - apply find_some in Hfind as [Hin Hmatch].
    apply in_map_to_list in Hin. cbn in Hin, Hmatch.
    apply String.eqb_eq in Hmatch.
    apply lookup_insert_Some in Hin as [[<- <-] | [Hne Hold]];
      [reflexivity|].
    destruct (email_taken_false us _ Hfree k found Hold Hmatch).
  - pose proof (find_none _ _ Hfind (id, row)) as Hnone.
    cbn in Hnone. rewrite String.eqb_refl in Hnone.
    assert (Hin : In (id, row) (map_to_list (<[id := row]> us))).
    { apply in_map_to_list. cbn. apply lookup_insert_eq. }
    specialize (Hnone Hin). discriminate.
Qed.

Lemma has_admin_iff (us : gmap Z Row) :
  has_admin us = true
  <-> exists id row, us !! id = Some row /\ row_role row = "admin".
Proof.
  unfold has_admin. rewrite existsb_exists. split.
  - intros [[id row] [Hin Hrole]]. apply in_map_to_list in Hin.
    apply String.eqb_eq in Hrole. eauto.
  - intros (id & row & Hrow & Hrole). exists (id, row). split.
    + apply in_map_to_list. exact Hrow.
    + apply String.eqb_eq. exact Hrole.
Qed.

Lemma count_admins_zero (us : gmap Z Row) :
  (Z.of_nat (length (List.filter
                       (fun kr : Z * Row => String.eqb (row_role kr.2) "admin")
                       (map_to_list us))) =? 0)
  = negb (has_admin us).
Proof.
  unfold has_admin. induction (map_to_list us) as [|kr l IH];
    [reflexivity|].
  cbn [List.filter existsb].
  destruct (String.eqb (row_role kr.2) "admin"); [reflexivity|].
  exact IH.
Qed.

End Tables.

Section Coverage.

Context `{P : Platform} `{A : AccountPlatform}.

(** ** Tokens: issue and verification *)

(** [VerifyJwtToken] returns claims without an error exactly for the
    tokens that decode, carry an HMAC algorithm, verify against the secret
    of the environment and pass the validation of their dates; the claims
    are then those of the token.  In particular it never returns nil
    claims together with a nil error for a token that has claims. *)
Theorem VerifyJwtToken_accepts_iff (tokenString : string)
        (claims : MapClaims) :
  VerifyJwtToken tokenString = (claims, None)
  <-> exists token,
      jwt_ParseUnverified tokenString = Some token
      /\ claims = Claims token
      /\ is_HMAC (Method token) = true
      /\ jwt_Verify (Method token) (SigningText token) (Signature token)
                    (os_Getenv "JWT_SECRET") = true
      /\ jwt_Validate (Claims token) = None.
Proof.
  split; [apply VerifyJwtToken_accepts|].
  intros (token & Hparse & -> & Halg & Hsig & Hval).
  unfold VerifyJwtToken, jwt_Parse, keyFunc.
  rewrite Hparse, Halg, Hsig, Hval. reflexivity.
Qed.

Lemma CreateJwtToken_signs (username role : string) :
  CreateJwtToken username role
  = jwt_SignedString (SigningMethodHMAC "HS256")
                     (issued_claims username role time_Now)
                     (os_Getenv "JWT_SECRET").
Proof. reflexivity. Qed.

Lemma issued_claims_lookup (username role : string) (now : Z) :
  issued_claims username role now !! "exp" = Some (VNumber (now + 15 * 60))
  /\ issued_claims username role now !! "nbf" = None
  /\ claim (issued_claims username role now) "username" = VString username
  /\ claim (issued_claims username role now) "role" = VString role.
Proof.
  unfold claim, issued_claims.
  refine (conj _ (conj _ (conj _ _))).
  - rewrite !lookup_insert_ne by discriminate. apply lookup_insert_eq.
  - rewrite !lookup_insert_ne by discriminate. apply lookup_empty.
  - rewrite lookup_insert_eq. reflexivity.
  - rewrite lookup_insert_ne by discriminate. rewrite lookup_insert_eq.
    reflexivity.
Qed.

(** Verification, on any platform [Q], of a token whose claims are the
    ones issued at the time [issued]. *)
Lemma VerifyJwtToken_issued (Q : Platform) (username role tok : string)
      (token : Token) (issued : Z) :
  @jwt_ParseUnverified Q tok = Some token ->
  is_HMAC (Method token) = true ->
  Claims token = issued_claims username role issued ->
  @jwt_Verify Q (Method token) (SigningText token) (Signature token)
              (@os_Getenv Q "JWT_SECRET") = true ->
  issued + 15 * 60 <> 0 ->
  @VerifyJwtToken Q tok
  = if @time_Now Q <? issued + 15 * 60
    then (issued_claims username role issued, None)
    else (∅, Some ErrTokenExpired).
Proof.
  intros Hparse Halg Hclaims Hsig Hnz.
  destruct (issued_claims_lookup username role issued)
    as (Hexp & Hnbf & _ & _).
  unfold VerifyJwtToken, jwt_Parse, keyFunc.
  rewrite Hparse, Halg, Hsig.
  unfold jwt_Validate, verifyExpiresAt, verifyNotBefore, parseNumericDate.
  rewrite Hclaims, Hexp, Hnbf.
  apply Z.eqb_neq in Hnz. rewrite Hnz.
  destruct (@time_Now Q <? issued + 15 * 60); [|reflexivity].
  cbn. rewrite Hclaims. reflexivity.
Qed.

(** A token that [CreateJwtToken] issued, and that the library reads back
    as signed, is accepted with its claims for the next fifteen minutes
    and refused as expired from then on, provided the expiry is not the
    Unix time 0, which the validator reads as no expiry at all. *)
Theorem issued_token_lifetime (username role tok : string) (token : Token)
        (t : Z) :
  CreateJwtToken username role = Some tok ->
  jwt_ParseUnverified tok = Some token ->
  is_HMAC (Method token) = true ->
  Claims token = issued_claims username role time_Now ->
  jwt_Verify (Method token) (SigningText token) (Signature token)
             (os_Getenv "JWT_SECRET") = true ->
  time_Now + 15 * 60 <> 0 ->
  @VerifyJwtToken (at_time P t) tok
  = if t <? time_Now + 15 * 60
    then (issued_claims username role time_Now, None)
    else (∅, Some ErrTokenExpired).
Proof.
  intros _ Hparse Halg Hclaims Hsig Hnz.
  exact (VerifyJwtToken_issued (at_time P t) username role tok token time_Now
                               Hparse Halg Hclaims Hsig Hnz).
Qed.

Lemma bearer_token_of (tok : string) :
  no_space tok = true -> bearer_token (String.append "Bearer " tok) = Some tok.
Proof.
  intros Hns.
  assert (Hstrip :
    strip_prefix "Bearer " (String.append "Bearer " tok) = Some tok)
    by reflexivity.
  unfold bearer_token. rewrite Hstrip, Hns. reflexivity.
Qed.

(** What the middleware does on an authenticated request, whether [next]
    returns or panics. *)
Lemma JWTAuthMiddleware_authenticated (next : ApiHandlerFunc) (r : Request)
      (w : World) (username role : string) :
  authenticated r username role ->
  JWTAuthMiddleware next r w
  = (next (with_identity r username role) ;;
     ret (Success http_StatusOK DNil)) w.
Proof.
  intros Hauth. unfold bind at 1.
  destruct (next (with_identity r username role) w) as [env w'|msg w'] eqn:Hn.
  - eapply JWTAuthMiddleware_passes; eassumption.
  - eapply JWTAuthMiddleware_panics; eassumption.
Qed.

(** A request that carries a freshly issued token reaches [next] with the
    very username and role the token was issued for, stored under the two
    typed keys. *)
Theorem issued_token_carries_identity (r : Request) (username role tok : string)
        (token : Token) :
  CreateJwtToken username role = Some tok ->
  jwt_ParseUnverified tok = Some token ->
  is_HMAC (Method token) = true ->
  Claims token = issued_claims username role time_Now ->
  jwt_Verify (Method token) (SigningText token) (Signature token)
             (os_Getenv "JWT_SECRET") = true ->
  0 <= time_Now ->
  no_space tok = true ->
  Header_Get r "Authorization" = String.append "Bearer " tok ->
  forall (next : ApiHandlerFunc) (w : World),
    JWTAuthMiddleware next r w
    = (next (with_identity r username role) ;;
       ret (Success http_StatusOK DNil)) w
    /\ context_Value (Ctx (with_identity r username role)) ContextUsernameKey
       = VString username
    /\ context_Value (Ctx (with_identity r username role)) ContextRoleKey
       = VString role.
Proof.
  intros _ Hparse Halg Hclaims Hsig Hnow Hns Hheader next w.
  split; [|split; reflexivity].
  apply JWTAuthMiddleware_authenticated.
  exists tok, (issued_claims username role time_Now).
  destruct (issued_claims_lookup username role time_Now)
    as (_ & _ & Husername & Hrole).
  split; [rewrite Hheader; apply bearer_token_of; exact Hns|].
  split; [|split; assumption].
  rewrite (VerifyJwtToken_issued P username role tok token time_Now
             Hparse Halg Hclaims Hsig) by lia.
  replace (time_Now <? time_Now + 15 * 60) with true
    by (symmetry; apply Z.ltb_lt; lia).
  reflexivity.
Qed.

(** A token that verifies but does not carry both a string username and a
    string role makes the middleware panic on its type assertion, before
    [next] is run and before anything is written. *)
Theorem JWTAuthMiddleware_identity_missing (r : Request) (tok : string)
        (claims : MapClaims) :
  bearer_token (Header_Get r "Authorization") = Some tok ->
  VerifyJwtToken tok = (claims, None) ->
  (forall s, claim claims "username" <> VString s)
  \/ (forall s, claim claims "role" <> VString s) ->
  forall (next : ApiHandlerFunc) (w : World),
    exists msg, JWTAuthMiddleware next r w = Panicked msg w.
Proof.
  intros Hbearer Hverify Hmissing next w. unfold JWTAuthMiddleware.
  rewrite (Header_nonempty_eqb _ (bearer_token_nonempty _ _ Hbearer)).
  pose proof (bearer_token_Split (Header_Get r "Authorization")) as Hsplit.
  cbv zeta in Hsplit. rewrite Hbearer in Hsplit.
  destruct Hsplit as [Hcheck Htoken]. rewrite Hcheck, Htoken, Hverify.
  unfold bind, assert_string, ret, panic.
  destruct (claim claims "username") as [|u|n|b] eqn:Hu;
    try (eexists; reflexivity).
  destruct (claim claims "role") as [|ro|n|b] eqn:Hr;
    try (eexists; reflexivity).
  destruct Hmissing as [H | H]; [destruct (H u) | destruct (H ro)]; reflexivity.
Qed.

Lemma from_server_no_typed_key (c : Context) (key : string) :
  from_server c = true -> context_Value c (KContextKey key) = VNil.
Proof.
  induction c as [|[k v] c IH]; [reflexivity|].
  cbn [from_server forallb fst]. intros H.
  apply andb_prop in H as [Hk Hc]. cbn [context_Value].
  destruct (decide (k = KContextKey key)) as [->|_]; [discriminate|].
  apply IH. exact Hc.
Qed.

(** The authorization middleware placed in front of the authentication
    middleware, so that it sees the request as the server made it, panics
    for every request: it returns no 403 and runs nothing behind it; its
    adapter has set the content type by then. *)
Theorem OnlyAdminMiddleware_before_authentication (r : Request) :
  from_server (Ctx r) = true ->
  forall (next : ApiHandlerFunc) (inner : HttpHandler) (w : World),
    exists msg,
      OnlyAdminMiddleware next r w = Panicked msg w
      /\ MiddlewareAdapter OnlyAdminMiddleware inner r w
         = Panicked msg (wrote w [content_type]).
Proof.
  intros Hserver next inner w.
  pose proof (from_server_no_typed_key _ "role" Hserver) as Hrole.
  fold ContextRoleKey in Hrole.
  eexists. split.
  - unfold OnlyAdminMiddleware. rewrite Hrole. reflexivity.
  - unfold MiddlewareAdapter, bind, OnlyAdminMiddleware.
    rewrite Hrole. reflexivity.
Qed.


(** ** Routes behind both middlewares *)

Lemma MiddlewareAdapter_JWT_authenticated (inner : HttpHandler) (r : Request)
      (w : World) (username role : string) :
  authenticated r username role ->
  MiddlewareAdapter JWTAuthMiddleware inner r w
  = (inner (with_identity r username role) ;;
     w_WriteHeader http_StatusOK) (wrote w [content_type]).
Proof.
  intros Hauth. unfold bind at 1.
  destruct (inner (with_identity r username role) (wrote w [content_type]))
    as [[] w'|msg w'] eqn:Hinner.
  - rewrite (MiddlewareAdapter_JWT_passes _ _ _ _ _ _ Hauth Hinner).
    rewrite w_WriteHeader_spec by (unfold http_StatusOK; lia). reflexivity.
  - unfold MiddlewareAdapter.
    unfold bind at 1. rewrite w_Header_Set_spec.
    unfold bind at 1. fold content_type.
    erewrite JWTAuthMiddleware_panics; [reflexivity | exact Hauth |].
    unfold bind. rewrite Hinner. reflexivity.
Qed.

Lemma MiddlewareAdapter_OnlyAdmin_transparent (inner : HttpHandler)
      (r : Request) (w : World) :
  context_Value (Ctx r) ContextRoleKey = VString "admin" ->
  MiddlewareAdapter OnlyAdminMiddleware inner r w
  = inner r (wrote w [content_type]).
Proof.
  intros Hrole.
  destruct (inner r (wrote w [content_type])) as [[] w'|msg w'] eqn:Hinner.
  - apply MiddlewareAdapter_OnlyAdmin_admin; assumption.
  - unfold MiddlewareAdapter.
    unfold bind at 1. rewrite w_Header_Set_spec.
    unfold bind at 1. fold content_type.
    rewrite (OnlyAdminMiddleware_on_role _ _ _ _ Hrole).
    change (String.eqb "admin" "admin") with true. cbv iota.
    unfold bind. rewrite Hinner. reflexivity.
Qed.

(** On the routes that carry both middlewares (creating a user, deleting
    one, the mock user) an authenticated caller whose role is not admin
    gets the rendered 403, followed by the 200 of the outer adapter; the
    handler is not run and the table stays as it was. *)
Theorem admin_route_forbids_other_roles (rt : UserRoute) (r : Request)
        (w : World) (username role : string) :
  In rt [POST_users; DELETE_user; GET_mock] ->
  authenticated r username role ->
  role <> "admin" ->
  UserRouter rt r w
  = Returned tt
      (wrote w [content_type; content_type; WriteHeader 403;
                Write (error_body "E403" "Forbidden" "You are not an admin");
                WriteHeader 200]).
Proof.
  intros Hrt Hauth Hrole.
  assert (Hshape : exists h,
    UserRouter rt
    = MiddlewareAdapter JWTAuthMiddleware
        (MiddlewareAdapter OnlyAdminMiddleware (ApiHandlerAdapter h))).
  { destruct Hrt as [<-|[<-|[<-|[]]]]; eexists; reflexivity. }
  destruct Hshape as [h ->].
  erewrite MiddlewareAdapter_JWT_passes; [| exact Hauth |].
  2:{ eapply MiddlewareAdapter_OnlyAdmin_other; [reflexivity | exact Hrole]. }
  rewrite !wrote_wrote. reflexivity.
Qed.

Lemma UserRouter_authorized (rt : UserRoute) (r : Request)
      (w : World) (username role : string) :
  authenticated r username role ->
  (In rt [POST_users; DELETE_user; GET_mock] -> role = "admin") ->
  UserRouter rt r w
  = (ApiHandlerAdapter (route_handler rt) (with_identity r username role) ;;
     w_WriteHeader 200)
      (wrote w (replicate (length (route_middlewares rt)) content_type)).
Proof.
  intros Hauth Hadmin.
  assert (Hboth : forall h : ApiHandlerFunc,
    role = "admin" ->
    MiddlewareAdapter JWTAuthMiddleware
      (MiddlewareAdapter OnlyAdminMiddleware (ApiHandlerAdapter h)) r w
    = (ApiHandlerAdapter h (with_identity r username role) ;;
       w_WriteHeader 200) (wrote w [content_type; content_type])).
  { intros h ->.
    rewrite (MiddlewareAdapter_JWT_authenticated _ _ _ _ _ Hauth).
    unfold bind.
    rewrite MiddlewareAdapter_OnlyAdmin_transparent by reflexivity.
    rewrite wrote_wrote. reflexivity. }
  destruct rt; cbn [route_middlewares length replicate route_handler].
  - apply Hboth. apply Hadmin. cbn. auto.
  - exact (MiddlewareAdapter_JWT_authenticated _ _ _ _ _ Hauth).
  - exact (MiddlewareAdapter_JWT_authenticated _ _ _ _ _ Hauth).
  - exact (MiddlewareAdapter_JWT_authenticated _ _ _ _ _ Hauth).
  - apply Hboth. apply Hadmin. cbn. auto.
  - apply Hboth. apply Hadmin. cbn. auto.
Qed.

(** A caller who passes the middlewares of a route, that is, any
    authenticated caller on the routes with the authentication middleware
    alone and an admin on the others, gets what [ApiHandlerAdapter] renders
    for the handler run on the request with the identity attached, after
    one content type per middleware and before the 200 of the outer
    adapter. *)
Theorem authorized_request_reaches_handler (rt : UserRoute) (r : Request)
        (w : World) (username role : string) :
  authenticated r username role ->
  (In rt [POST_users; DELETE_user; GET_mock] -> role = "admin") ->
  UserRouter rt r w
  = (ApiHandlerAdapter (route_handler rt) (with_identity r username role) ;;
     w_WriteHeader 200)
      (wrote w (replicate (length (route_middlewares rt)) content_type)).
Proof. exact (UserRouter_authorized rt r w username role). Qed.


(** ** The handlers of the users *)

Lemma route_handler_answers (rt : UserRoute) (r : Request) (w : World) :
  exists env w',
    route_handler rt r w = Returned env w'
    /\ rw w' = rw w
    /\ renderable env
    /\ In (envelope_status env) (route_statuses rt).
Proof.
  assert (H : returns_quietly
                (fun env => renderable env
                            /\ In (envelope_status env) (route_statuses rt))
                (route_handler rt r)).
  { destruct rt; cbn [route_handler route_statuses];
      try (unfold insertUser, getAllUsers, getUser, updateUser, getMockUser;
           repeat first
             [ apply select_by_id_quiet | apply select_all_quiet
             | apply update_returning_quiet | apply insert_returning_quiet
             | apply returns_quietly_ret;
               split; [cbv; split; discriminate | cbn; tauto]
             | apply returns_quietly_bind; [| intros ? ]
             | case_match ]; fail).
    intros w0. unfold deleteUser.
    destruct (strconv_Atoi (chi_URLParam r "id")) as [id|].
    - unfold exec_delete, bind, get_db, put_db, ret.
      destruct (reachable (db w0)); cbn [negb];
        do 2 eexists; (split; [reflexivity|]);
        (split; [reflexivity|]);
        (split; [cbv; split; discriminate | cbn; tauto]).
    - do 2 eexists. split; [reflexivity|]. split; [reflexivity|].
      split; [cbv; split; discriminate | cbn; tauto]. }
  destruct (H w) as (env & w' & Hrun & Hrw & Henv & Hst). eauto 10.
Qed.

(** Every handler of [UserRouter] returns, without touching the writer, an
    envelope with exactly one pointer set and a status from the list of
    its route: so deleting never answers 404, the mock user never anything
    but 200, and only creating a user can answer 409. *)
Theorem route_handler_statuses (rt : UserRoute) (r : Request) (w : World) :
  exists env w',
    route_handler rt r w = Returned env w'
    /\ rw w' = rw w
    /\ renderable env
    /\ In (envelope_status env) (route_statuses rt).
Proof. exact (route_handler_answers rt r w). Qed.

Lemma reads_only_ret {B} (b : B) : reads_only (ret b).
Proof. intros w. exists b. reflexivity. Qed.

Lemma reads_only_bind {B C} (m : M B) (k : B -> M C) :
  reads_only m -> (forall b, reads_only (k b)) -> reads_only (bind m k).
Proof.
  intros Hm Hk w. destruct (Hm w) as [b Hb]. destruct (Hk b w) as [c Hc].
  exists c. unfold bind. rewrite Hb. exact Hc.
Qed.

Lemma reads_only_get_db : reads_only get_db.
Proof. intros w. exists (db w). reflexivity. Qed.

Ltac reading :=
  repeat first
    [ apply reads_only_get_db
    | apply reads_only_ret
    | apply reads_only_bind; [| intros ? ]
    | case_match ].

(** Reading a user, listing the users, the mock user, the health check
    and a login, whatever their outcome, leave the table and the writer
    exactly as they were. *)
Theorem reading_handlers_change_nothing (r : Request) :
  reads_only (getUser r)
  /\ reads_only (getAllUsers r)
  /\ reads_only (getMockUser r)
  /\ reads_only (HealthCheck r)
  /\ reads_only (Login r).
Proof.
  refine (conj _ (conj _ (conj _ (conj _ _))));
    unfold getUser, getAllUsers, getMockUser, HealthCheck, Login,
      select_by_id, select_all, select_by_email;
    reading.
Qed.

(** A login with an email that no row has and a login with a wrong
    password get the same envelope, and neither changes anything: the
    answer does not tell whether the email exists. *)
Theorem Login_hides_unknown_email (r : Request) (w : World)
        (req : loginRequest) :
  json_Decode_loginRequest (Body r) = Some req ->
  loginEmail req <> "" ->
  loginPassword req <> "" ->
  reachable (db w) = true ->
  match find_by_email (users (db w)) (loginEmail req) with
  | None => True
  | Some found =>
      bcrypt_CompareHashAndPassword (row_password found.2)
                                    (loginPassword req) = false
  end ->
  Login r w
  = Returned (Failure 401 "E401" "Unauthorized" "Invalid email or password") w.
Proof.
  intros Hbody Hemail Hpassword Hup Hcase.
  unfold Login. rewrite Hbody.
  apply String.eqb_neq in Hemail, Hpassword. rewrite Hemail, Hpassword.
  cbn [orb]. unfold select_by_email, bind, get_db. rewrite Hup. cbn [negb].
  destruct (find_by_email (users (db w)) (loginEmail req)) as [found|];
    [|reflexivity].
  unfold ret. rewrite Hcase. reflexivity.
Qed.

(** *** Path ids *)

Lemma strconv_Atoi_shape (s : string) (n : Z) :
  strconv_Atoi s = Some n ->
  decimal_shape s = true /\ - 2 ^ 63 <= n <= 2 ^ 63 - 1.
Proof.
  assert (Hrange : forall m : Z,
    (if (- 2 ^ 63 <=? m) && (m <=? 2 ^ 63 - 1) then Some m else None)
    = Some n -> - 2 ^ 63 <= n <= 2 ^ 63 - 1).
  { intros m H.
    destruct ((- 2 ^ 63 <=? m) && (m <=? 2 ^ 63 - 1)) eqn:Hm; [|discriminate].
    injection H as <-. apply andb_prop in Hm as [H1 H2].
    apply Z.leb_le in H1, H2. lia. }
  unfold strconv_Atoi, decimal_shape, all_digits.
  destruct s as [|c rest]; [discriminate|].
  destruct (Ascii.eqb c "-") eqn:Hminus; cbn [orb].
  - destruct rest as [|d rest']; [discriminate|].
    destruct (parse_digits 0 (String d rest')) as [m|]; [|discriminate].
    cbn. intros H. split; [reflexivity | exact (Hrange _ H)].
  - destruct (Ascii.eqb c "+") eqn:Hplus.
    + destruct rest as [|d rest']; [discriminate|].
      destruct (parse_digits 0 (String d rest')) as [m|]; [|discriminate].
      cbn. intros H. split; [reflexivity | exact (Hrange _ H)].
    + destruct (parse_digits 0 (String c rest)) as [m|]; [|discriminate].
      cbn. intros H. split; [reflexivity | exact (Hrange _ H)].
Qed.

(** A path id that is not a decimal numeral with an optional sign (the
    empty id, letters, a fraction, a lone sign) gets the 400 failure from
    reading, updating and deleting alike, before the body is looked at and
    without any access to the table. *)
Theorem malformed_id_is_rejected (r : Request) (w : World) :
  decimal_shape (chi_URLParam r "id") = false ->
  getUser r w = Returned bad_id w
  /\ updateUser r w = Returned bad_id w
  /\ deleteUser r w = Returned bad_id w.
Proof.
  intros Hshape.
  assert (Hatoi : strconv_Atoi (chi_URLParam r "id") = None).
  { destruct (strconv_Atoi (chi_URLParam r "id")) as [n|] eqn:H;
      [|reflexivity].
    apply strconv_Atoi_shape in H as [H _]. congruence. }
  unfold getUser, updateUser, deleteUser. rewrite Hatoi.
  refine (conj _ (conj _ _)); reflexivity.
Qed.


(** *** Reading, deleting, updating, creating *)

Lemma getUser_found (r : Request) (w : World) (id : Z) (row : Row) :
  strconv_Atoi (chi_URLParam r "id") = Some id ->
  reachable (db w) = true ->
  users (db w) !! id = Some row ->
  getUser r w = Returned (Success 200 (DUser (shown id row))) w.
Proof.
  intros Hid Hup Hrow. unfold getUser. rewrite Hid.
  unfold bind at 1. rewrite (select_by_id_found id w row Hup Hrow).
  reflexivity.
Qed.

Lemma getUser_absent (r : Request) (w : World) (id : Z) :
  strconv_Atoi (chi_URLParam r "id") = Some id ->
  reachable (db w) = true ->
  users (db w) !! id = None ->
  getUser r w = Returned (not_found (chi_URLParam r "id")) w.
Proof.
  intros Hid Hup Hrow. unfold getUser. rewrite Hid.
  unfold select_by_id, bind, get_db. rewrite Hup, Hrow. reflexivity.
Qed.

(** Deleting a user, existing or not, answers 204 and removes exactly
    the row of that id; reading the same id afterwards answers 404, and
    deleting it again answers 204 once more without any further change. *)
Theorem delete_then_read (r : Request) (w : World) (id : Z) :
  strconv_Atoi (chi_URLParam r "id") = Some id ->
  reachable (db w) = true ->
  let w1 := with_users w (delete id (users (db w))) in
  deleteUser r w = Returned (Success 204 DNil) w1
  /\ getUser r w1 = Returned (not_found (chi_URLParam r "id")) w1
  /\ deleteUser r w1 = Returned (Success 204 DNil) w1
  /\ (forall j, j <> id -> users (db w1) !! j = users (db w) !! j).
Proof.
  intros Hid Hup w1.
  assert (Hdelete : forall w0, reachable (db w0) = true ->
    deleteUser r w0
    = Returned (Success 204 DNil) (with_users w0 (delete id (users (db w0))))).
  { intros w0 Hup0. unfold deleteUser. rewrite Hid.
    unfold exec_delete, bind, get_db. rewrite Hup0. reflexivity. }
  refine (conj _ (conj _ (conj _ _))).
  - apply Hdelete. exact Hup.
  - eapply getUser_absent; [exact Hid | exact Hup |].
    cbn. apply lookup_delete_eq.
  - rewrite Hdelete by exact Hup. f_equal.
    unfold w1, with_users, set_users. cbn. rewrite delete_delete_eq.
    reflexivity.
  - intros j Hj. cbn. apply lookup_delete_ne. congruence.
Qed.

(** The decision of [updateUser], for a well-formed request on an existing
    row: the update runs exactly when the context holds the string admin
    under the key of type string; the caller's identity is never compared
    with the row.  Then the name and the email of that row are replaced,
    its password and role and all other rows stay, the answer is 200 with
    the new values, and reading the id afterwards shows them. *)
Theorem updateUser_gate (r : Request) (w : World) (id : Z)
        (req : userRequest) (row : Row) :
  strconv_Atoi (chi_URLParam r "id") = Some id ->
  json_Decode_userRequest (Body r) = Some req ->
  reqName req <> "" ->
  reqEmail req <> "" ->
  reachable (db w) = true ->
  users (db w) !! id = Some row ->
  email_taken (users (db w)) (Some id) (reqEmail req) = false ->
  let row' := mkRow (reqName req) (reqEmail req) (row_password row)
                    (row_role row) in
  let w1 := with_users w (<[id := row']> (users (db w))) in
  if iface_eq_string (context_Value (Ctx r) (KString "role")) "admin"
  then updateUser r w = Returned (Success 200 (DUser (shown id row'))) w1
       /\ getUser r w1 = Returned (Success 200 (DUser (shown id row'))) w1
       /\ (forall j, j <> id -> users (db w1) !! j = users (db w) !! j)
  else updateUser r w = Returned forbidden_update w.
Proof.
  intros Hid Hbody Hname Hemail Hup Hrow Hfree row' w1.
  assert (Hrun : updateUser r w
    = if iface_eq_string (context_Value (Ctx r) (KString "role")) "admin"
      then Returned (Success 200 (DUser (shown id row'))) w1
      else Returned forbidden_update w).
  { unfold updateUser. rewrite Hid, Hbody.
    apply String.eqb_neq in Hname, Hemail. rewrite Hname, Hemail.
    cbn [orb]. unfold bind at 1.
    rewrite (select_by_id_found id w row Hup Hrow).
    unfold row_id. cbn [fst]. rewrite Z.eqb_refl. cbn [negb orb].
    destruct (iface_eq_string _ "admin"); cbn [negb]; [|reflexivity].
    unfold update_returning, bind, get_db.
    rewrite Hup, Hrow, Hfree. reflexivity. }
  destruct (iface_eq_string (context_Value (Ctx r) (KString "role")) "admin");
    [|exact Hrun].
  refine (conj Hrun (conj _ _)).
  - eapply getUser_found; [exact Hid | exact Hup |].
    cbn. apply lookup_insert_eq.
  - intros j Hj. cbn. apply lookup_insert_ne. congruence.
Qed.

(** When the new email belongs to another row, the update that got past
    the gate answers 500, not the 409 that creating a user gives for the
    same conflict, and changes nothing. *)
Theorem updateUser_duplicate_email (r : Request) (w : World) (id : Z)
        (req : userRequest) (row : Row) :
  context_Value (Ctx r) (KString "role") = VString "admin" ->
  strconv_Atoi (chi_URLParam r "id") = Some id ->
  json_Decode_userRequest (Body r) = Some req ->
  reqName req <> "" ->
  reqEmail req <> "" ->
  reachable (db w) = true ->
  users (db w) !! id = Some row ->
  email_taken (users (db w)) (Some id) (reqEmail req) = true ->
  updateUser r w = Returned E500 w.
Proof.
  intros Hrole Hid Hbody Hname Hemail Hup Hrow Htaken.
  unfold updateUser. rewrite Hid, Hbody.
  apply String.eqb_neq in Hname, Hemail. rewrite Hname, Hemail.
  cbn [orb]. unfold bind at 1.
  rewrite (select_by_id_found id w row Hup Hrow).
  unfold row_id. cbn [fst]. rewrite Z.eqb_refl, Hrole. cbn [negb orb].
  cbn [iface_eq_string]. change (String.eqb "admin" "admin") with true.
  cbn [negb]. unfold update_returning, bind, get_db.
  rewrite Hup, Hrow, Htaken. reflexivity.
Qed.

(** Creating a user with a name and an email that nobody has, on a table
    whose password and role columns have defaults, stores the row under
    the next id of the sequence with the default role and answers 201
    with the id, name and email; reading that id afterwards shows the same
    user, and the rows that were there stay. *)
Theorem insert_then_read (r r' : Request) (w : World) (req : userRequest)
        (password role : string) :
  json_Decode_userRequest (Body r) = Some req ->
  reqName req <> "" ->
  reqEmail req <> "" ->
  reachable (db w) = true ->
  default_password (db w) = Some password ->
  default_role (db w) = Some role ->
  email_taken (users (db w)) None (reqEmail req) = false ->
  users (db w) !! next_id (db w) = None ->
  strconv_Atoi (chi_URLParam r' "id") = Some (next_id (db w)) ->
  let id := next_id (db w) in
  let row := mkRow (reqName req) (reqEmail req) password role in
  let w1 := {| rw := rw w;
               db := set_users (bump_next_id (db w))
                               (<[id := row]> (users (db w))) |} in
  insertUser r w = Returned (Success 201 (DUser (shown id row))) w1
  /\ getUser r' w1 = Returned (Success 200 (DUser (shown id row))) w1
  /\ (forall j old, users (db w) !! j = Some old ->
                    users (db w1) !! j = Some old).
Proof.
  intros Hbody Hname Hemail Hup Hpw Hrole Hfree Hfresh Hid id row w1.
  refine (conj _ (conj _ _)).
  - unfold insertUser. rewrite Hbody.
    apply String.eqb_neq in Hname, Hemail. rewrite Hname, Hemail.
    cbn [orb]. unfold insert_returning, bind, get_db, put_db, ret.
    rewrite Hup, Hpw, Hrole. cbn [negb rw db]. rewrite Hfree, Hfresh.
    reflexivity.
  - eapply getUser_found; [exact Hid | exact Hup |].
    cbn. apply lookup_insert_eq.
  - intros j old Hold. cbn. rewrite lookup_insert_ne; [exact Hold|].
    intros <-. fold id in Hfresh. congruence.
Qed.

(** Creating a user with an email that a row already has answers 409
    and leaves every row as it was; only the id sequence has moved on. *)
Theorem insertUser_duplicate_email (r : Request) (w : World)
        (req : userRequest) (password role : string) :
  json_Decode_userRequest (Body r) = Some req ->
  reqName req <> "" ->
  reqEmail req <> "" ->
  reachable (db w) = true ->
  default_password (db w) = Some password ->
  default_role (db w) = Some role ->
  email_taken (users (db w)) None (reqEmail req) = true ->
  insertUser r w
  = Returned (Failure 409 "E409" "Conflict"
                "Email is already in use. Please use a different email.")
             {| rw := rw w; db := bump_next_id (db w) |}
  /\ users (bump_next_id (db w)) = users (db w).
Proof.
  intros Hbody Hname Hemail Hup Hpw Hrole Htaken. split; [|reflexivity].
  unfold insertUser. rewrite Hbody.
  apply String.eqb_neq in Hname, Hemail. rewrite Hname, Hemail.
  cbn [orb]. unfold insert_returning, bind, get_db, put_db, ret.
  rewrite Hup, Hpw, Hrole. cbn [negb rw db]. rewrite Htaken. reflexivity.
Qed.

(** The listing answers 200 with one entry per row of the table: an
    entry is in the list exactly when its id has a row with that name,
    email and role, and no id comes twice. *)
Theorem getAllUsers_lists_the_table (r : Request) (w : World) :
  reachable (db w) = true ->
  exists allUsers,
    getAllUsers r w = Returned (Success 200 (DUsers allUsers)) w
    /\ length allUsers = size (users (db w))
    /\ NoDup (ID <$> allUsers)
    /\ (forall u, u ∈ allUsers
                  <-> exists row, users (db w) !! ID u = Some row
                                  /\ u = listed (ID u, row)).
Proof.
  intros Hup. exists (listed <$> map_to_list (users (db w))).
  refine (conj _ (conj _ (conj _ _))).
  - unfold getAllUsers, select_all, bind, get_db. rewrite Hup. reflexivity.
  - rewrite length_fmap. apply length_map_to_list.
  - rewrite <- list_fmap_compose.
    exact (NoDup_fst_map_to_list (users (db w))).
  - intros u. rewrite list_elem_of_fmap. split.
    + intros ([k row] & -> & Hin). apply elem_of_map_to_list in Hin.
      exists row. split; [exact Hin | reflexivity].
    + intros (row & Hrow & Hu). exists (ID u, row). split; [exact Hu|].
      apply elem_of_map_to_list. exact Hrow.
Qed.


(** ** Accounts *)

Lemma Login_found (r : Request) (w : World) (req : loginRequest)
      (found : Z * Row) :
  json_Decode_loginRequest (Body r) = Some req ->
  loginEmail req <> "" ->
  loginPassword req <> "" ->
  reachable (db w) = true ->
  find_by_email (users (db w)) (loginEmail req) = Some found ->
  bcrypt_CompareHashAndPassword (row_password found.2) (loginPassword req)
  = true ->
  Login r w
  = Returned
      match CreateJwtToken (row_name found.2) (row_role found.2) with
      | Some token =>
          Success 200 (DAuth (mkAuthResponse "Login successful" token))
      | None => E500
      end w.
Proof.
  intros Hbody Hemail Hpassword Hup Hfound Hhash.
  unfold Login. rewrite Hbody.
  apply String.eqb_neq in Hemail, Hpassword. rewrite Hemail, Hpassword.
  cbn [orb]. unfold select_by_email, bind, get_db.
  rewrite Hup, Hfound. cbn [negb]. unfold ret. rewrite Hhash. cbn [negb].
  destruct (CreateJwtToken _ _); reflexivity.
Qed.

Lemma insert_account_fresh (name email password role : string) (w : World) :
  reachable (db w) = true ->
  email_taken (users (db w)) None email = false ->
  users (db w) !! next_id (db w) = None ->
  insert_account name email password role w
  = Returned (inr (next_id (db w), mkRow name email password role))
      {| rw := rw w;
         db := set_users (bump_next_id (db w))
                 (<[next_id (db w) := mkRow name email password role]>
                    (users (db w))) |}.
Proof.
  intros Hup Hfree Hfresh.
  unfold insert_account, bind, get_db, put_db, ret.
  rewrite Hup. cbn [negb rw db]. rewrite Hfree, Hfresh. reflexivity.
Qed.

Lemma insert_account_taken (name email password role : string) (w : World) :
  reachable (db w) = true ->
  email_taken (users (db w)) None email = true ->
  insert_account name email password role w
  = Returned (inl (PgError "23505"))
             {| rw := rw w; db := bump_next_id (db w) |}.
Proof.
  intros Hup Htaken.
  unfold insert_account, bind, get_db, put_db, ret.
  rewrite Hup. cbn [negb rw db]. rewrite Htaken. reflexivity.
Qed.

Lemma RegisterNewAccount_fresh (r : Request) (w : World)
      (req : newAccountRequest) (hash : string) :
  json_Decode_newAccountRequest (Body r) = Some req ->
  newEmail req <> "" ->
  newPassword req <> "" ->
  newName req <> "" ->
  bcrypt_GenerateFromPassword (newPassword req) = Some hash ->
  reachable (db w) = true ->
  email_taken (users (db w)) None (newEmail req) = false ->
  users (db w) !! next_id (db w) = None ->
  RegisterNewAccount r w
  = Returned
      match CreateJwtToken (newName req) "user" with
      | Some token =>
          Success 201 (DAuth (mkAuthResponse "Account created successfully"
                                             token))
      | None => E500
      end
      {| rw := rw w;
         db := set_users (bump_next_id (db w))
                 (<[next_id (db w)
                    := mkRow (newName req) (newEmail req) hash "user"]>
                    (users (db w))) |}.
Proof.
  intros Hbody Hemail Hpassword Hname Hhash Hup Hfree Hfresh.
  unfold RegisterNewAccount. rewrite Hbody.
  apply String.eqb_neq in Hemail, Hpassword, Hname.
  rewrite Hemail, Hpassword, Hname. cbn [orb]. rewrite Hhash.
  unfold bind at 1.
  rewrite (insert_account_fresh _ _ _ _ w Hup Hfree Hfresh).
  cbn [snd row_name row_role].
  destruct (CreateJwtToken (newName req) "user"); reflexivity.
Qed.

(** Registering with an email that nobody has stores, under the next id,
    the name, the email, the hash that bcrypt made of the password (not
    the password) and the role user, whatever the body says, and answers
    201 with a token for that name and role.  When the signing of the
    token fails the answer is 500, and the account has been created all
    the same. *)
Theorem RegisterNewAccount_creates_user (r : Request) (w : World)
        (req : newAccountRequest) (hash : string) :
  json_Decode_newAccountRequest (Body r) = Some req ->
  newEmail req <> "" ->
  newPassword req <> "" ->
  newName req <> "" ->
  bcrypt_GenerateFromPassword (newPassword req) = Some hash ->
  reachable (db w) = true ->
  email_taken (users (db w)) None (newEmail req) = false ->
  users (db w) !! next_id (db w) = None ->
  let row := mkRow (newName req) (newEmail req) hash "user" in
  let w1 := {| rw := rw w;
               db := set_users (bump_next_id (db w))
                               (<[next_id (db w) := row]> (users (db w))) |} in
  RegisterNewAccount r w
  = Returned
      match CreateJwtToken (newName req) "user" with
      | Some token =>
          Success 201 (DAuth (mkAuthResponse "Account created successfully"
                                             token))
      | None => E500
      end w1
  /\ users (db w1) !! next_id (db w) = Some row.
Proof.
  intros Hbody Hemail Hpassword Hname Hhash Hup Hfree Hfresh row w1.
  split; [|cbn; apply lookup_insert_eq].
  exact (RegisterNewAccount_fresh r w req hash Hbody Hemail Hpassword Hname
                                  Hhash Hup Hfree Hfresh).
Qed.

(** Registering and then logging in with the same email and password
    succeeds, as long as bcrypt accepts the password against the hash it
    made of it: the login finds the new row and issues a token for the
    registered name with the role user. *)
Theorem register_then_login (r r2 : Request) (w : World)
        (req : newAccountRequest) (hash : string) :
  json_Decode_newAccountRequest (Body r) = Some req ->
  newEmail req <> "" ->
  newPassword req <> "" ->
  newName req <> "" ->
  bcrypt_GenerateFromPassword (newPassword req) = Some hash ->
  bcrypt_CompareHashAndPassword hash (newPassword req) = true ->
  reachable (db w) = true ->
  email_taken (users (db w)) None (newEmail req) = false ->
  users (db w) !! next_id (db w) = None ->
  json_Decode_loginRequest (Body r2)
  = Some (mkLoginRequest (newEmail req) (newPassword req)) ->
  exists env w1,
    RegisterNewAccount r w = Returned env w1
    /\ Login r2 w1
       = Returned
           match CreateJwtToken (newName req) "user" with
           | Some token =>
               Success 200 (DAuth (mkAuthResponse "Login successful" token))
           | None => E500
           end w1.
Proof.
  intros Hbody Hemail Hpassword Hname Hhash Hcompare Hup Hfree Hfresh Hbody2.
  pose proof (RegisterNewAccount_fresh r w req hash Hbody Hemail
                Hpassword Hname Hhash Hup Hfree Hfresh) as Hrun.
  do 2 eexists. split; [exact Hrun|].
  rewrite (Login_found r2 _ (mkLoginRequest (newEmail req) (newPassword req))
             (next_id (db w),
              mkRow (newName req) (newEmail req) hash "user"));
    try assumption; try reflexivity.
  cbn. exact (find_by_email_inserted (users (db w)) (next_id (db w))
                (mkRow (newName req) (newEmail req) hash "user") Hfree).
Qed.

(** Registering with an email that a row already has answers 409 and
    leaves every row as it was. *)
Theorem RegisterNewAccount_duplicate_email (r : Request) (w : World)
        (req : newAccountRequest) (hash : string) :
  json_Decode_newAccountRequest (Body r) = Some req ->
  newEmail req <> "" ->
  newPassword req <> "" ->
  newName req <> "" ->
  bcrypt_GenerateFromPassword (newPassword req) = Some hash ->
  reachable (db w) = true ->
  email_taken (users (db w)) None (newEmail req) = true ->
  exists w1,
    RegisterNewAccount r w
    = Returned (Failure 409 "E409" "Conflict"
                  "Email is already in use. Please use a different email.")
               w1
    /\ users (db w1) = users (db w).
Proof.
  intros Hbody Hemail Hpassword Hname Hhash Hup Htaken.
  eexists. split.
  - unfold RegisterNewAccount. rewrite Hbody.
    apply String.eqb_neq in Hemail, Hpassword, Hname.
    rewrite Hemail, Hpassword, Hname. cbn [orb]. rewrite Hhash.
    unfold bind at 1. rewrite (insert_account_taken _ _ _ _ w Hup Htaken).
    reflexivity.
  - reflexivity.
Qed.


(** ** The admin bootstrap *)

Lemma ensureAdminExists_run (w : World) :
  ensureAdminExists w
  = if negb (reachable (db w)) then Returned (Some (DbFailure ErrConn)) w
    else if has_admin (users (db w)) then Returned None w
    else match bcrypt_GenerateFromPassword (os_Getenv "ADMIN_PASSWORD") with
         | None => Returned (Some HashFailure) w
         | Some hashedPassword =>
             if email_taken (users (db w)) None (os_Getenv "ADMIN_EMAIL")
                || bool_decide (is_Some (users (db w) !! next_id (db w)))
             then Returned (Some (DbFailure (PgError "23505")))
                           {| rw := rw w; db := bump_next_id (db w) |}
             else Returned None
                    {| rw := rw w;
                       db := set_users (bump_next_id (db w))
                               (<[next_id (db w)
                                  := mkRow "Admin" (os_Getenv "ADMIN_EMAIL")
                                           hashedPassword "admin"]>
                                  (users (db w))) |}
         end.
Proof.
  unfold ensureAdminExists, select_count_admins, bind at 1.
  unfold bind at 1, get_db.
  destruct (reachable (db w)) eqn:Hup; cbn [negb]; [|reflexivity].
  unfold ret at 1. rewrite count_admins_zero.
  destruct (has_admin (users (db w))); cbn [negb]; [reflexivity|].
  destruct (bcrypt_GenerateFromPassword _) as [hash|]; [|reflexivity].
  unfold insert_account, bind, get_db, put_db, ret.
  rewrite Hup. cbn [negb rw db].
  destruct (email_taken _ _ _ || _); reflexivity.
Qed.

(** When the bootstrap reports no error, the table has an admin, every
    row that was there is still there, and the writer is untouched; if
    there was an admin already nothing has changed at all; and running the
    bootstrap again changes nothing and adds no second admin. *)
Theorem ensureAdminExists_establishes_admin (w w' : World) :
  ensureAdminExists w = Returned None w' ->
  has_admin (users (db w')) = true
  /\ rw w' = rw w
  /\ (forall j old, users (db w) !! j = Some old ->
                    users (db w') !! j = Some old)
  /\ (has_admin (users (db w)) = true -> w' = w)
  /\ ensureAdminExists w' = Returned None w'.
Proof.
  rewrite ensureAdminExists_run.
  destruct (reachable (db w)) eqn:Hup; cbn [negb]; [|discriminate].
  destruct (has_admin (users (db w))) eqn:Hadmin.
  - intros H. injection H as <-.
    refine (conj Hadmin (conj eq_refl (conj _ (conj _ _)))); auto.
    rewrite ensureAdminExists_run, Hup, Hadmin. reflexivity.
  - destruct (bcrypt_GenerateFromPassword _) as [hash|]; [|discriminate].
    destruct (email_taken _ _ _ || _) eqn:Hclash; [discriminate|].
    apply orb_false_iff in Hclash as [_ Hfresh].
    apply bool_decide_eq_false in Hfresh.
    intros H. injection H as <-.
    assert (Hnew : has_admin
      (<[next_id (db w)
         := mkRow "Admin" (os_Getenv "ADMIN_EMAIL") hash "admin"]>
         (users (db w))) = true).
    { apply has_admin_iff. do 2 eexists. split.
      - apply lookup_insert_eq.
      - reflexivity. }
    refine (conj Hnew (conj eq_refl (conj _ (conj _ _)))).
    + intros j old Hold. cbn. rewrite lookup_insert_ne; [exact Hold|].
      intros <-. apply Hfresh. eauto.
    + discriminate.
    + match goal with
      | |- ensureAdminExists ?w1 = _ =>
          assert (Hup1 : reachable (db w1) = true) by exact Hup;
          assert (Hnew1 : has_admin (users (db w1)) = true) by exact Hnew;
          rewrite (ensureAdminExists_run w1), Hup1, Hnew1
      end.
      reflexivity.
Qed.

(** On a reachable table without an admin, with the email of the
    environment free and the id sequence ahead of the rows, the bootstrap
    stores the admin; the login with the email and the password of the
    environment then succeeds with a token for the name Admin and the role
    admin, as long as bcrypt accepts the password against its own hash and
    neither variable is empty. *)
Theorem bootstrap_then_login (r : Request) (w : World) (hash : string) :
  reachable (db w) = true ->
  has_admin (users (db w)) = false ->
  bcrypt_GenerateFromPassword (os_Getenv "ADMIN_PASSWORD") = Some hash ->
  bcrypt_CompareHashAndPassword hash (os_Getenv "ADMIN_PASSWORD") = true ->
  os_Getenv "ADMIN_EMAIL" <> "" ->
  os_Getenv "ADMIN_PASSWORD" <> "" ->
  email_taken (users (db w)) None (os_Getenv "ADMIN_EMAIL") = false ->
  users (db w) !! next_id (db w) = None ->
  json_Decode_loginRequest (Body r)
  = Some (mkLoginRequest (os_Getenv "ADMIN_EMAIL")
                         (os_Getenv "ADMIN_PASSWORD")) ->
  exists w',
    ensureAdminExists w = Returned None w'
    /\ Login r w'
       = Returned
           match CreateJwtToken "Admin" "admin" with
           | Some token =>
               Success 200 (DAuth (mkAuthResponse "Login successful" token))
           | None => E500
           end w'.
Proof.
  intros Hup Hadmin Hhash Hcompare Hemail Hpassword Hfree Hfresh Hbody.
  eexists. split.
  - rewrite ensureAdminExists_run, Hup, Hadmin, Hhash, Hfree, Hfresh.
    reflexivity.
  - rewrite (Login_found r _
               (mkLoginRequest (os_Getenv "ADMIN_EMAIL")
                               (os_Getenv "ADMIN_PASSWORD"))
               (next_id (db w),
                mkRow "Admin" (os_Getenv "ADMIN_EMAIL") hash "admin"));
      try assumption; try reflexivity.
    cbn. exact (find_by_email_inserted (users (db w)) (next_id (db w))
                  (mkRow "Admin" (os_Getenv "ADMIN_EMAIL") hash "admin")
                  Hfree).
Qed.

(** ** What the client sees *)

Lemma ApiHandlerAdapter_renders (handler : ApiHandlerFunc) (r : Request)
      (w w1 : World) (env : Envelope) :
  handler r (wrote w [content_type]) = Returned env w1 ->
  rw w1 = rw (wrote w [content_type]) ->
  renderable env ->
  exists bytes,
    ApiHandlerAdapter handler r w
    = Returned tt {| rw := rw w ++ [content_type;
                                    WriteHeader (envelope_status env);
                                    Write bytes];
                     db := db w1 |}.
Proof.
  intros Hhandler Hrw Henv.
  assert (Hw1 : w1 = {| rw := rw w ++ [content_type]; db := db w1 |}).
  { destruct w1 as [calls d]. cbn in Hrw. subst calls. reflexivity. }
  rewrite Hw1 in Hhandler.
  destruct env as [[[st d]|] [[st' [c m dt]]|]]; cbn in Henv; try contradiction.
  - rewrite (ApiHandlerAdapter_success _ _ _ _ _ _ Hhandler Henv).
    eexists. reflexivity.
  - rewrite (ApiHandlerAdapter_failure _ _ _ _ _ _ _ _ Hhandler Henv).
    eexists. reflexivity.
Qed.

Lemma committed_status_headers (n : nat) (rest : list WCall) :
  committed_status (replicate n content_type ++ rest) = committed_status rest.
Proof. induction n as [|n IH]; [reflexivity | exact IH]. Qed.

Lemma count_WriteHeader_headers (n : nat) :
  count_WriteHeader (replicate n content_type) = 0%nat.
Proof. induction n as [|n IH]; [reflexivity | exact IH]. Qed.

(** For a caller who passes the middlewares of a route, on a writer not
    yet used, the status committed to the client is the one of the
    handler's envelope: the 200 that the outer adapter sends afterwards
    comes too late to count. *)
Theorem response_status_is_the_handlers (rt : UserRoute) (r : Request)
        (w : World) (username role : string) :
  rw w = [] ->
  authenticated r username role ->
  (In rt [POST_users; DELETE_user; GET_mock] -> role = "admin") ->
  exists env w1 w',
    route_handler rt (with_identity r username role)
                  (wrote w (replicate (S (length (route_middlewares rt)))
                                      content_type))
    = Returned env w1
    /\ UserRouter rt r w = Returned tt w'
    /\ db w' = db w1
    /\ committed_status (rw w') = Some (envelope_status env)
    /\ count_WriteHeader (rw w') = 2%nat.
Proof.
  intros Hfresh Hauth Hadmin.
  set (prefix := replicate (length (route_middlewares rt)) content_type).
  assert (Hrouter :
    UserRouter rt r w
    = (ApiHandlerAdapter (route_handler rt) (with_identity r username role) ;;
       w_WriteHeader 200) (wrote w prefix)).
  { exact (UserRouter_authorized rt r w username role Hauth Hadmin). }
  assert (Hprefix :
    replicate (S (length (route_middlewares rt))) content_type
    = (prefix ++ [content_type])%list).
  { unfold prefix. destruct rt; reflexivity. }
  rewrite Hprefix, <- wrote_wrote.
  destruct (route_handler_answers rt (with_identity r username role)
              (wrote (wrote w prefix) [content_type]))
    as (env & w1 & Hhandler & Hrw & Henv & Hstatus).
  destruct (ApiHandlerAdapter_renders _ _ _ _ _ Hhandler Hrw Henv)
    as [bytes Hrender].
  exists env, w1. eexists.
  split; [exact Hhandler|]. split.
  { rewrite Hrouter. unfold bind. rewrite Hrender.
    rewrite w_WriteHeader_spec by lia. reflexivity. }
  split; [reflexivity|].
  assert (Hcommit : is_informational (envelope_status env) = false).
  { destruct rt; cbn [route_statuses In] in Hstatus;
      repeat (destruct Hstatus as [<- | Hstatus]; [reflexivity|]);
      destruct Hstatus. }
  unfold wrote. cbn [rw]. rewrite Hfresh. cbn [app].
  split.
  - rewrite <- !app_assoc. unfold prefix.
    rewrite committed_status_headers. cbn. rewrite Hcommit. reflexivity.
  - rewrite !count_WriteHeader_app. unfold prefix.
    rewrite count_WriteHeader_headers. reflexivity.
Qed.

End Coverage.

(** * The properties on the sample platform *)

#[local] Existing Instance Sample.platform.

(** C5 (the claim as stated fails).  A caller with the role user is turned
    away, but the failure carries neither the message nor the detail
    not authorized. *)
Lemma OnlyAdminMiddleware_text_differs :
  let r := with_identity (Sample.request (Sample.bearer "tok.user") "" "")
                         "ann" "user" in
  let next : ApiHandlerFunc := fun _ => ret (Success 200 DNil) in
  context_Value (Ctx r) ContextRoleKey = VString "user"
  /\ "user" <> "admin"
  /\ exists env,
      OnlyAdminMiddleware next r Sample.world = Returned env Sample.world
      /\ ~ is_failure env 403 "E403" "not authorized".
Proof.
  cbv zeta. split; [reflexivity|]. split; [discriminate|].
  eexists. split; [reflexivity|].
  intros (_ & _ & [H | H]); discriminate H.
Qed.

(** The earlier revision of [Login] lets in whoever sends the stored
    password column itself, and turns away the password it was derived
    from. *)
Lemma EarlierRevision_Login_compares_columns :
  EarlierRevision.Login (Sample.request [] "" "ann@x.com,bcrypt:pw")
                        Sample.world
  = Returned (Success 200 (DAuth (mkAuthResponse "Login successful"
                                                 "tok.user")))
             Sample.world
  /\ EarlierRevision.Login (Sample.request [] "" "ann@x.com,pw") Sample.world
     = Returned bad_credentials Sample.world.
Proof. split; evaluate. Qed.

(** ** Witnesses *)

Lemma JWTAuthMiddleware_replaces_envelope_witness :
  let next : ApiHandlerFunc := fun _ => ret (not_found "7") in
  let r := Sample.request (Sample.bearer "tok.admin") "7" "" in
  next (with_identity r "root" "admin") Sample.world
  = Returned (not_found "7") Sample.world
  /\ JWTAuthMiddleware next r Sample.world
     = Returned (Success 200 DNil) Sample.world.
Proof.
  cbv zeta. split; [reflexivity|].
  refine (proj1 (JWTAuthMiddleware_replaces_envelope
                   (fun _ => ret (not_found "7"))
                   (Sample.request (Sample.bearer "tok.admin") "7" "")
                   Sample.world Sample.world "root" "admin" (not_found "7")
                   _ _ _)).
  - authenticate "tok.admin" "root" "admin".
  - reflexivity.
  - discriminate.
Defined.

Lemma JWTAuthMiddleware_state_machine_witness :
  let next : ApiHandlerFunc := fun _ => panic "next was invoked" in
  let answer (authorization : list string) :=
    JWTAuthMiddleware next (Sample.request authorization "" "") Sample.world in
  let failure (detail : string) :=
    Returned (Failure 401 "E401" "Unauthorized" detail) Sample.world in
  answer [] = failure "Missing token"
  /\ answer ["Basic cm9vdDp0b29y"] = failure "Invalid token format"
  /\ answer ["Bearer tok.admin trailing"] = failure "Invalid token format"
  /\ answer ["Bearer tok.forged"] = failure "Invalid token"
  /\ answer ["Bearer tok.rsa"] = failure "Invalid token"
  /\ answer ["Bearer tok.expired"] = failure "Invalid token".
Proof.
  cbv zeta.
  refine (conj _ (conj _ (conj _ (conj _ (conj _ _))))).
  - apply JWTAuthMiddleware_state_machine. apply MissingToken. reflexivity.
  - apply JWTAuthMiddleware_state_machine. apply InvalidTokenFormat; evaluate.
  - apply JWTAuthMiddleware_state_machine. apply InvalidTokenFormat; evaluate.
  - apply JWTAuthMiddleware_state_machine.
    apply (InvalidToken _ "tok.forged"); [evaluate | evaluate |].
    eapply WrongSignature; reflexivity.
  - apply JWTAuthMiddleware_state_machine.
    apply (InvalidToken _ "tok.rsa"); [evaluate | evaluate |].
    eapply ForeignAlgorithm; reflexivity.
  - apply JWTAuthMiddleware_state_machine.
    apply (InvalidToken _ "tok.expired"); [evaluate | evaluate |].
    eapply (Expired _ _ 500); [reflexivity | reflexivity | lia |].
    vm_compute. discriminate.
Defined.

Lemma protected_route_rejects_unauthenticated_witness :
  let r := Sample.request ["Bearer tok.forged"] "2" "" in
  valid_authorization r = false
  /\ exists detail,
      UserRouter DELETE_user r Sample.world
      = Returned tt
          (wrote Sample.world
                 [content_type; WriteHeader 401;
                  Write (error_body "E401" "Unauthorized" detail)]).
Proof.
  cbv zeta. split; [evaluate|].
  destruct (protected_route_rejects_unauthenticated
              (Sample.request ["Bearer tok.forged"] "2" "") Sample.world)
    as (detail & _ & Hroutes & _); [evaluate|].
  exists detail. exact (Hroutes DELETE_user).
Defined.

Lemma OnlyAdminMiddleware_gate_witness :
  let next : ApiHandlerFunc := fun _ => ret (Success 204 DNil) in
  let r (role : string) :=
    with_identity (Sample.request [] "2" "") "someone" role in
  OnlyAdminMiddleware next (r "user") Sample.world
  = Returned (Failure 403 "E403" "Forbidden" "You are not an admin")
             Sample.world
  /\ OnlyAdminMiddleware next (r "admin") Sample.world
     = Returned (Success 204 DNil) Sample.world.
Proof.
  cbv zeta. split.
  - refine (proj1 (OnlyAdminMiddleware_gate _ _ _ "user" _) _);
      [reflexivity | discriminate].
  - refine (proj2 (OnlyAdminMiddleware_gate _ _ _ "admin" _) _); reflexivity.
Defined.

Lemma authenticated_request_gets_two_statuses_witness :
  exists w' calls,
    UserRouter GET_users (Sample.request (Sample.bearer "tok.admin") "" "")
               Sample.world
    = Returned tt w'
    /\ rw w' = (content_type :: calls ++ [WriteHeader 200])%list
    /\ count_WriteHeader (content_type :: calls ++ [WriteHeader 200]) = 2%nat.
Proof.
  destruct (authenticated_request_gets_two_statuses
              GET_users (Sample.request (Sample.bearer "tok.admin") "" "")
              Sample.world "root" "admin")
    as (w' & calls & Hrun & Hrw & _ & Hcount).
  - authenticate "tok.admin" "root" "admin".
  - exists w', calls. auto.
Defined.

Lemma ApiHandlerAdapter_encodes_nil_witness :
  ApiHandlerAdapter deleteUser
                    (Sample.request (Sample.bearer "tok.admin") "2" "")
                    Sample.world
  = Returned tt
      {| rw := [content_type; WriteHeader 204;
                Write (String.append "null" newline)];
         db := set_users Sample.database (delete 2 Sample.table) |}.
Proof.
  refine (proj1 (ApiHandlerAdapter_encodes_nil
                   deleteUser
                   (Sample.request (Sample.bearer "tok.admin") "2" "")
                   Sample.world 204
                   (set_users Sample.database (delete 2 Sample.table))
                   _ _)).
  - evaluate.
  - lia.
Defined.

Lemma PUT_user_refuses_every_caller_witness :
  let put (token : string) : Outcome unit :=
    UserRouter PUT_user
               (Sample.request (Sample.bearer token) "2" "ann,ann@new.com")
               Sample.world in
  let refused : World :=
    wrote Sample.world
          [content_type; content_type; WriteHeader 403;
           Write (error_body "E403" "Forbidden"
              "You are no authorized to update another user than yourself");
           WriteHeader 200] in
  put "tok.admin" = Returned tt refused
  /\ put "tok.user" = Returned tt refused
  /\ db refused = db Sample.world.
Proof.
  cbv zeta. refine (conj _ (conj _ _)).
  - refine (PUT_user_refuses_every_caller
              _ _ "root" "admin" 2 (mkUserRequest "ann" "ann@new.com")
              (mkRow "ann" "ann@x.com" "bcrypt:pw" "user") _ _ _ _ _ _ _ _);
      [authenticate "tok.admin" "root" "admin" | evaluate ..].
  - refine (PUT_user_refuses_every_caller
              _ _ "ann" "user" 2 (mkUserRequest "ann" "ann@new.com")
              (mkRow "ann" "ann@x.com" "bcrypt:pw" "user") _ _ _ _ _ _ _ _);
      [authenticate "tok.user" "ann" "user" | evaluate ..].
  - reflexivity.
Defined.

Lemma deleteUser_absent_record_witness :
  deleteUser (Sample.request (Sample.bearer "tok.admin") "999" "")
             Sample.world
  = Returned (Success 204 DNil) Sample.world.
Proof.
  refine (deleteUser_absent_record _ _ 999 _ _ _); evaluate.
Defined.

Lemma updateUser_always_forbidden_witness :
  updateUser (with_identity
                (Sample.request (Sample.bearer "tok.admin") "2"
                                "ann,ann@new.com")
                "root" "admin")
             Sample.world
  = Returned forbidden_update Sample.world.
Proof.
  refine (proj2 (proj2 (proj2
            (updateUser_always_forbidden
               (Sample.request (Sample.bearer "tok.admin") "2"
                               "ann,ann@new.com")
               Sample.world "root" "admin" 2
               (mkUserRequest "ann" "ann@new.com")
               (mkRow "ann" "ann@x.com" "bcrypt:pw" "user")
               _ _ _ _ _ _ _)))); evaluate.
Defined.

Lemma Login_verifies_hash_witness :
  Login (Sample.request [] "" "ann@x.com,pw") Sample.world
  = Returned (Success 200 (DAuth (mkAuthResponse "Login successful"
                                                 "tok.user")))
             Sample.world
  /\ Login (Sample.request [] "" "ann@x.com,bcrypt:pw") Sample.world
     = Returned (Failure 401 "E401" "Unauthorized" "Invalid email or password")
                Sample.world.
Proof.
  split.
  - refine (proj2 (Login_verifies_hash
                     (Sample.request [] "" "ann@x.com,pw") Sample.world
                     (mkLoginRequest "ann@x.com" "pw")
                     (2, mkRow "ann" "ann@x.com" "bcrypt:pw" "user")
                     _ _ _ _ _)); evaluate.
  - refine (proj2 (Login_verifies_hash
                     (Sample.request [] "" "ann@x.com,bcrypt:pw") Sample.world
                     (mkLoginRequest "ann@x.com" "bcrypt:pw")
                     (2, mkRow "ann" "ann@x.com" "bcrypt:pw" "user")
                     _ _ _ _ _)); evaluate.
Defined.

(** ** Witnesses of the further properties *)

#[local] Existing Instance SampleAccounts.platform.

Lemma VerifyJwtToken_accepts_iff_witness :
  VerifyJwtToken "tok.admin" = (Sample.claims_of "root" "admin" 2000, None).
Proof.
  apply (proj2 (VerifyJwtToken_accepts_iff
                  "tok.admin" (Sample.claims_of "root" "admin" 2000))).
  exists (mkToken (SigningMethodHMAC "HS256")
                  (Sample.claims_of "root" "admin" 2000) "tok" "s3cret" false).
  refine (conj _ (conj _ (conj _ (conj _ _)))); evaluate.
Defined.

Lemma issued_token_lifetime_witness :
  @CreateJwtToken SampleAccounts.startup "root" "admin" = Some "tok.admin"
  /\ @VerifyJwtToken (at_time SampleAccounts.startup 1999) "tok.admin"
     = (issued_claims "root" "admin" 1100, None)
  /\ @VerifyJwtToken (at_time SampleAccounts.startup 2000) "tok.admin"
     = (∅, Some ErrTokenExpired).
Proof.
  refine (conj eq_refl (conj _ _)).
  - refine (@issued_token_lifetime SampleAccounts.startup
              "root" "admin" "tok.admin"
              (mkToken (SigningMethodHMAC "HS256")
                       (Sample.claims_of "root" "admin" 2000)
                       "tok" "s3cret" false)
              1999 _ _ _ _ _ _); evaluate.
  - refine (@issued_token_lifetime SampleAccounts.startup
              "root" "admin" "tok.admin"
              (mkToken (SigningMethodHMAC "HS256")
                       (Sample.claims_of "root" "admin" 2000)
                       "tok" "s3cret" false)
              2000 _ _ _ _ _ _); evaluate.
Defined.

Lemma issued_token_carries_identity_witness :
  let next : ApiHandlerFunc :=
    fun r => ret (Success 200
                    (DHealth match context_Value (Ctx r) ContextUsernameKey with
                             | VString s => s
                             | _ => ""
                             end)) in
  @JWTAuthMiddleware SampleAccounts.startup next
                     (Sample.request (Sample.bearer "tok.user") "" "")
                     Sample.world
  = Returned (Success 200 DNil) Sample.world.
Proof.
  intros next.
  refine (proj1 (@issued_token_carries_identity SampleAccounts.startup
                   (Sample.request (Sample.bearer "tok.user") "" "")
                   "ann" "user" "tok.user"
                   (mkToken (SigningMethodHMAC "HS256")
                            (Sample.claims_of "ann" "user" 2000)
                            "tok" "s3cret" false)
                   _ _ _ _ _ _ _ _ next Sample.world)); evaluate.
Defined.

Lemma JWTAuthMiddleware_identity_missing_witness :
  exists msg,
    @JWTAuthMiddleware SampleAccounts.with_bare_token
                       (fun _ => ret (Success 200 DNil))
                       (Sample.request (Sample.bearer "tok.bare") "" "")
                       Sample.world
    = Panicked msg Sample.world.
Proof.
  refine (@JWTAuthMiddleware_identity_missing SampleAccounts.with_bare_token
            (Sample.request (Sample.bearer "tok.bare") "" "") "tok.bare"
            (<["exp" := VNumber 2000]> ∅) _ _ _ _ _); [evaluate | evaluate |].
  left. intros s. evaluate.
Defined.

Lemma OnlyAdminMiddleware_before_authentication_witness :
  exists msg,
    OnlyAdminMiddleware (fun _ => ret (Success 200 DNil))
                        (Sample.request (Sample.bearer "tok.admin") "" "")
                        Sample.world
    = Panicked msg Sample.world.
Proof.
  destruct (OnlyAdminMiddleware_before_authentication
              (Sample.request (Sample.bearer "tok.admin") "" "") eq_refl
              (fun _ => ret (Success 200 DNil)) (fun _ => ret tt)
              Sample.world) as (msg & Hrun & _).
  exists msg. exact Hrun.
Defined.

Lemma admin_route_forbids_other_roles_witness :
  UserRouter DELETE_user (Sample.request (Sample.bearer "tok.user") "1" "")
             Sample.world
  = Returned tt
      (wrote Sample.world
             [content_type; content_type; WriteHeader 403;
              Write (error_body "E403" "Forbidden" "You are not an admin");
              WriteHeader 200]).
Proof.
  refine (admin_route_forbids_other_roles
            DELETE_user (Sample.request (Sample.bearer "tok.user") "1" "")
            Sample.world "ann" "user" _ _ _).
  - cbn. auto.
  - authenticate "tok.user" "ann" "user".
  - discriminate.
Defined.

Lemma authorized_request_reaches_handler_witness :
  UserRouter DELETE_user (Sample.request (Sample.bearer "tok.admin") "2" "")
             Sample.world
  = (ApiHandlerAdapter deleteUser
       (with_identity (Sample.request (Sample.bearer "tok.admin") "2" "")
                      "root" "admin") ;;
     w_WriteHeader 200)
      (wrote Sample.world [content_type; content_type]).
Proof.
  refine (authorized_request_reaches_handler
            DELETE_user (Sample.request (Sample.bearer "tok.admin") "2" "")
            Sample.world "root" "admin" _ _).
  - authenticate "tok.admin" "root" "admin".
  - reflexivity.
Defined.

Lemma Login_hides_unknown_email_witness :
  Login (Sample.request [] "" "nobody@x.com,pw") Sample.world
  = Returned bad_credentials Sample.world
  /\ Login (Sample.request [] "" "ann@x.com,guess") Sample.world
     = Returned bad_credentials Sample.world.
Proof.
  split.
  - refine (Login_hides_unknown_email
              (Sample.request [] "" "nobody@x.com,pw") Sample.world
              (mkLoginRequest "nobody@x.com" "pw") _ _ _ _ _);
      evaluate; exact I.
  - refine (Login_hides_unknown_email
              (Sample.request [] "" "ann@x.com,guess") Sample.world
              (mkLoginRequest "ann@x.com" "guess") _ _ _ _ _); evaluate.
Defined.

Lemma malformed_id_is_rejected_witness :
  getUser (Sample.request [] "abc" "") Sample.world
  = Returned bad_id Sample.world
  /\ deleteUser (Sample.request [] "1.5" "") Sample.world
     = Returned bad_id Sample.world
  /\ updateUser (Sample.request [] "-" "ann,ann@new.com") Sample.world
     = Returned bad_id Sample.world.
Proof.
  refine (conj _ (conj _ _)).
  - refine (proj1 (malformed_id_is_rejected _ _ _)). evaluate.
  - refine (proj2 (proj2 (malformed_id_is_rejected _ _ _))). evaluate.
  - refine (proj1 (proj2 (malformed_id_is_rejected _ _ _))). evaluate.
Defined.

Lemma delete_then_read_witness :
  let r := Sample.request [] "2" "" in
  let w1 := with_users Sample.world (delete 2 Sample.table) in
  deleteUser r Sample.world = Returned (Success 204 DNil) w1
  /\ getUser r w1 = Returned (not_found "2") w1.
Proof.
  cbv zeta.
  destruct (delete_then_read (Sample.request [] "2" "") Sample.world 2
                             eq_refl eq_refl) as (Hdelete & Hread & _).
  split; [exact Hdelete | exact Hread].
Defined.

Lemma updateUser_gate_witness :
  let r (c : Context) := mkRequest ∅ {["id" := "2"]} "ann,ann@new.com" c in
  let row' := mkRow "ann" "ann@new.com" "bcrypt:pw" "user" in
  updateUser (r [(KString "role", VString "admin")]) Sample.world
  = Returned (Success 200 (DUser (shown 2 row')))
             (with_users Sample.world (<[2 := row']> Sample.table))
  /\ updateUser (r [(ContextRoleKey, VString "admin")]) Sample.world
     = Returned forbidden_update Sample.world.
Proof.
  cbv zeta. split.
  - pose proof (updateUser_gate
                  (mkRequest ∅ {["id" := "2"]} "ann,ann@new.com"
                             [(KString "role", VString "admin")])
                  Sample.world 2 (mkUserRequest "ann" "ann@new.com")
                  (mkRow "ann" "ann@x.com" "bcrypt:pw" "user")
                  eq_refl eq_refl) as H.
    cbv zeta in H.
    exact (proj1 (H ltac:(discriminate) ltac:(discriminate) eq_refl eq_refl
                    eq_refl)).
  - pose proof (updateUser_gate
                  (mkRequest ∅ {["id" := "2"]} "ann,ann@new.com"
                             [(ContextRoleKey, VString "admin")])
                  Sample.world 2 (mkUserRequest "ann" "ann@new.com")
                  (mkRow "ann" "ann@x.com" "bcrypt:pw" "user")
                  eq_refl eq_refl) as H.
    cbv zeta in H.
    exact (H ltac:(discriminate) ltac:(discriminate) eq_refl eq_refl eq_refl).
Defined.

Lemma updateUser_duplicate_email_witness :
  updateUser (mkRequest ∅ {["id" := "2"]} "ann,root@x.com"
                        [(KString "role", VString "admin")])
             Sample.world
  = Returned E500 Sample.world.
Proof.
  refine (updateUser_duplicate_email
            _ _ 2 (mkUserRequest "ann" "root@x.com")
            (mkRow "ann" "ann@x.com" "bcrypt:pw" "user")
            _ _ _ _ _ _ _ _); evaluate.
Defined.

Lemma insert_then_read_witness :
  let row := mkRow "bob" "bob@x.com" "" "user" in
  let w1 := {| rw := [];
               db := set_users (bump_next_id Sample.database)
                               (<[3 := row]> Sample.table) |} in
  insertUser (Sample.request [] "" "bob,bob@x.com") Sample.world
  = Returned (Success 201 (DUser (shown 3 row))) w1
  /\ getUser (Sample.request [] "3" "") w1
     = Returned (Success 200 (DUser (shown 3 row))) w1.
Proof.
  cbv zeta.
  refine (let H := insert_then_read
                     (Sample.request [] "" "bob,bob@x.com")
                     (Sample.request [] "3" "") Sample.world
                     (mkUserRequest "bob" "bob@x.com") "" "user"
                     _ _ _ _ _ _ _ _ _ in
          conj (proj1 H) (proj1 (proj2 H))); evaluate.
Defined.

Lemma insertUser_duplicate_email_witness :
  insertUser (Sample.request [] "" "bob,ann@x.com") Sample.world
  = Returned (Failure 409 "E409" "Conflict"
                "Email is already in use. Please use a different email.")
             {| rw := []; db := bump_next_id Sample.database |}.
Proof.
  refine (proj1 (insertUser_duplicate_email
                   (Sample.request [] "" "bob,ann@x.com") Sample.world
                   (mkUserRequest "bob" "ann@x.com") "" "user"
                   _ _ _ _ _ _ _)); evaluate.
Defined.

Lemma getAllUsers_lists_the_table_witness :
  exists allUsers,
    getAllUsers (Sample.request [] "" "") Sample.world
    = Returned (Success 200 (DUsers allUsers)) Sample.world
    /\ length allUsers = 2%nat.
Proof.
  destruct (getAllUsers_lists_the_table (Sample.request [] "" "")
                                        Sample.world eq_refl)
    as (allUsers & Hrun & Hlength & _).
  exists allUsers. split; [exact Hrun | exact Hlength].
Defined.

Lemma RegisterNewAccount_creates_user_witness :
  let row := mkRow "bob" "bob@x.com" "bcrypt:hunter2" "user" in
  RegisterNewAccount (Sample.request [] "" "bob,bob@x.com,hunter2")
                     Sample.world
  = Returned (Success 201 (DAuth (mkAuthResponse
                                    "Account created successfully"
                                    "tok.user")))
             {| rw := [];
                db := set_users (bump_next_id Sample.database)
                                (<[3 := row]> Sample.table) |}.
Proof.
  cbv zeta.
  refine (proj1 (RegisterNewAccount_creates_user
                   (Sample.request [] "" "bob,bob@x.com,hunter2")
                   Sample.world
                   (mkNewAccountRequest "bob" "bob@x.com" "hunter2")
                   "bcrypt:hunter2" _ _ _ _ _ _ _ _)); evaluate.
Defined.

Lemma register_then_login_witness :
  exists env w1,
    RegisterNewAccount (Sample.request [] "" "bob,bob@x.com,hunter2")
                       Sample.world
    = Returned env w1
    /\ Login (Sample.request [] "" "bob@x.com,hunter2") w1
       = Returned (Success 200 (DAuth (mkAuthResponse "Login successful"
                                                      "tok.user")))
                  w1.
Proof.
  refine (register_then_login
            (Sample.request [] "" "bob,bob@x.com,hunter2")
            (Sample.request [] "" "bob@x.com,hunter2") Sample.world
            (mkNewAccountRequest "bob" "bob@x.com" "hunter2")
            "bcrypt:hunter2" _ _ _ _ _ _ _ _ _ _); evaluate.
Defined.

Lemma RegisterNewAccount_duplicate_email_witness :
  exists w1,
    RegisterNewAccount (Sample.request [] "" "bob,ann@x.com,hunter2")
                       Sample.world
    = Returned (Failure 409 "E409" "Conflict"
                  "Email is already in use. Please use a different email.")
               w1
    /\ users (db w1) = Sample.table.
Proof.
  refine (RegisterNewAccount_duplicate_email
            (Sample.request [] "" "bob,ann@x.com,hunter2") Sample.world
            (mkNewAccountRequest "bob" "ann@x.com" "hunter2")
            "bcrypt:hunter2" _ _ _ _ _ _ _); evaluate.
Defined.

Lemma ensureAdminExists_establishes_admin_witness :
  let w := mkWorld [] SampleAccounts.no_admin in
  let w' := {| rw := [];
               db := set_users (bump_next_id SampleAccounts.no_admin)
                       (<[3 := mkRow "Admin" "root@x.com" "bcrypt:toor"
                                     "admin"]>
                          (users SampleAccounts.no_admin)) |} in
  @ensureAdminExists SampleAccounts.startup _ w = Returned None w'
  /\ has_admin (users (db w')) = true
  /\ @ensureAdminExists SampleAccounts.startup _ w' = Returned None w'.
Proof.
  cbv zeta.
  assert (Hrun :
    @ensureAdminExists SampleAccounts.startup _
                       (mkWorld [] SampleAccounts.no_admin)
    = Returned None
        {| rw := [];
           db := set_users (bump_next_id SampleAccounts.no_admin)
                   (<[3 := mkRow "Admin" "root@x.com" "bcrypt:toor" "admin"]>
                      (users SampleAccounts.no_admin)) |}) by evaluate.
  destruct (@ensureAdminExists_establishes_admin SampleAccounts.startup _
              _ _ Hrun) as (Hadmin & _ & _ & _ & Hagain).
  refine (conj Hrun (conj Hadmin Hagain)).
Defined.

Lemma bootstrap_then_login_witness :
  exists w',
    @ensureAdminExists SampleAccounts.startup _
                       (mkWorld [] SampleAccounts.no_admin)
    = Returned None w'
    /\ @Login SampleAccounts.startup
              (Sample.request [] "" "root@x.com,toor") w'
       = Returned (Success 200 (DAuth (mkAuthResponse "Login successful"
                                                      "tok.admin")))
                  w'.
Proof.
  refine (@bootstrap_then_login SampleAccounts.startup _
            (Sample.request [] "" "root@x.com,toor")
            (mkWorld [] SampleAccounts.no_admin) "bcrypt:toor"
            _ _ _ _ _ _ _ _ _); evaluate.
Defined.

Lemma response_status_is_the_handlers_witness :
  exists w',
    UserRouter GET_user (Sample.request (Sample.bearer "tok.user") "7" "")
               Sample.world
    = Returned tt w'
    /\ committed_status (rw w') = Some 404
    /\ count_WriteHeader (rw w') = 2%nat.
Proof.
  destruct (response_status_is_the_handlers
              GET_user (Sample.request (Sample.bearer "tok.user") "7" "")
              Sample.world "ann" "user" eq_refl)
    as (env & w1 & w' & Hhandler & Hrun & _ & Hstatus & Hcount).
  - authenticate "tok.user" "ann" "user".
  - intros [H|[H|[H|[]]]]; discriminate H.
  - exists w'. refine (conj Hrun (conj _ Hcount)).
    rewrite Hstatus. vm_compute in Hhandler.
    injection Hhandler as <- _. reflexivity.
Defined.
